(** * Gobbledegook stand-alone server: a shallow embedding of [standalone.cpp]

    The file models the example application of the Gobbledegook BLE
    peripheral framework: its two served values, the data bridge
    ([dataGetter], [dataSetter]), the GATT tree declared by
    [serverConfigurator] with its handlers, and [main].

    Layout: the data model and the program first, the properties after. *)

From Stdlib Require Import ZArith List String Ascii Bool Lia.
From Stdlib.Strings Require Import Byte.
From Stdlib Require Import DecimalString.
Import ListNotations.

Open Scope list_scope.
Open Scope Z_scope.
Open Scope string_scope.

Set Warnings "-register-all".

(* ================================================================== *)
(** * Data model                                                       *)
(* ================================================================== *)

(** [enum LogLevel { Debug, Verbose, Normal, ErrorsOnly }] *)
Inductive LogLevel := Debug | Verbose | Normal | ErrorsOnly.

(** The enumerators' integer values, used by the [<=] tests of the loggers. *)
Definition LogLevel_value (l : LogLevel) : Z :=
  match l with Debug => 0 | Verbose => 1 | Normal => 2 | ErrorsOnly => 3 end.

(** Modelled from the spec: the enumeration of the header [Gobbledegook.h],
    which is missing; section 3 lists the server states Uninitialized,
    Initializing, Running, Stopping, Stopped, strictly monotonic. *)
Inductive GGKServerRunState :=
  EUninitialized | EInitializing | ERunning | EStopping | EStopped.

(** Modelled from the spec: the enumerators' values, in the order of
    section 3, for the [<] test of [main]. *)
Definition GGKServerRunState_value (s : GGKServerRunState) : Z :=
  match s with
  | EUninitialized => 0 | EInitializing => 1 | ERunning => 2
  | EStopping => 3 | EStopped => 4
  end.

(** Modelled from the spec: the health enumeration of the missing header;
    section 3 gives Ok, FailedInit, FailedRun. *)
Inductive GGKServerHealth := EOk | EFailedInit | EFailedRun.

Definition GGKServerHealth_eqb (a b : GGKServerHealth) : bool :=
  match a, b with
  | EOk, EOk | EFailedInit, EFailedInit | EFailedRun, EFailedRun => true
  | _, _ => false
  end.

(** Values that travel over D-Bus.  [VNull] is the C++ [NULL] variant pointer
    (an empty method return), [VByteArray] the D-Bus type [ay]. *)
Inductive Variant :=
| VNull
| VByteArray (bytes : list byte)
| VTuple (children : list Variant).

(** Messages the server puts on the bus. *)
Inductive BusMessage :=
| MethodReturn (body : Variant)
| MethodError (name : string)
| PropertiesChanged (path : string) (value : Variant).

(** Calls that leave the program: libc, the thread library and the
    Gobbledegook facade.  They are recorded in the order they are made. *)
Inductive Call :=
| call_signal (signum : Z)
| call_ggkLogRegister (level : string)
| call_ggkStart (serviceName advertisingShortName advertisingLongName : string)
                (maxAsyncInitTimeoutMS : Z)
| call_ggkGetServerRunState
| call_sleep_for (seconds : Z)
| call_ggkNofifyUpdatedCharacteristic (path : string)
| call_ggkTriggerShutdown
| call_ggkWait
| call_ggkGetServerHealth.

(** What the handlers of the time and CPU services read from the host. *)
Record Host := {
  gvariantCurrentTime : Variant;
  gvariantLocalTime : Variant;
  asctime_localtime : string;
  cpuCount : Z;
  cpuModel : string
}.

(** The program state: the globals of [standalone.cpp], its standard output,
    and what it has handed to the outside world. *)
Record World := mkWorld {
  serverDataBatteryLevel : Z;        (* static uint8_t, initially 78 *)
  serverDataTextString : string;     (* static std::string *)
  logLevel : LogLevel;               (* LogLevel logLevel = Normal *)
  cout : list string;                (* lines written to std::cout *)
  calls : list Call;                 (* outside calls, oldest first *)
  updateQueue : list string;         (* the server's notify queue *)
  bus : list BusMessage;             (* D-Bus messages sent, oldest first *)
  host : Host
}.

Definition set_serverDataBatteryLevel (v : Z) (w : World) : World :=
  mkWorld v (serverDataTextString w) (logLevel w) (cout w) (calls w)
          (updateQueue w) (bus w) (host w).

Definition set_serverDataTextString (s : string) (w : World) : World :=
  mkWorld (serverDataBatteryLevel w) s (logLevel w) (cout w) (calls w)
          (updateQueue w) (bus w) (host w).

Definition set_logLevel (l : LogLevel) (w : World) : World :=
  mkWorld (serverDataBatteryLevel w) (serverDataTextString w) l (cout w)
          (calls w) (updateQueue w) (bus w) (host w).

Definition put_cout (line : string) (w : World) : World :=
  mkWorld (serverDataBatteryLevel w) (serverDataTextString w) (logLevel w)
          ((cout w ++ [line])%list) (calls w) (updateQueue w) (bus w) (host w).

Definition put_call (c : Call) (w : World) : World :=
  mkWorld (serverDataBatteryLevel w) (serverDataTextString w) (logLevel w)
          (cout w) ((calls w ++ [c])%list) (updateQueue w) (bus w) (host w).

Definition set_updateQueue (q : list string) (w : World) : World :=
  mkWorld (serverDataBatteryLevel w) (serverDataTextString w) (logLevel w)
          (cout w) (calls w) q (bus w) (host w).

Definition put_bus (m : BusMessage) (w : World) : World :=
  mkWorld (serverDataBatteryLevel w) (serverDataTextString w) (logLevel w)
          (cout w) (calls w) (updateQueue w) ((bus w ++ [m])%list) (host w).

Definition sampleHost : Host :=
  {| gvariantCurrentTime := VByteArray [];
     gvariantLocalTime := VByteArray [];
     asctime_localtime := "Mon Nov  2 12:00:00 2026" ++ String "010" "";
     cpuCount := 4;
     cpuModel := "Marvin" |}.

(** The state at program start: the initialisers of the three globals. *)
Definition initialWorld : World :=
  mkWorld 78 "Hello, world!" Normal [] [] [] [] sampleHost.

(* ================================================================== *)
(** * Computations: state passing, [None] when the process dies         *)
(* ================================================================== *)

Definition M (A : Type) : Type := World -> option (A * World).

Definition ret {A} (a : A) : M A := fun w => Some (a, w).

Definition bind {A B} (m : M A) (k : A -> M B) : M B :=
  fun w => match m w with
           | Some (a, w') => k a w'
           | None => None
           end.

(** The process dies: a failed GLib type assertion.  (A read through a null
    pointer dies in the same way, see [chars_at].) *)
Definition crash {A} : M A := fun _ => None.

Definition gets {A} (f : World -> A) : M A := fun w => Some (f w, w).

Definition modify (f : World -> World) : M unit := fun w => Some (tt, f w).

Declare Scope prog_scope.
Delimit Scope prog_scope with prog.
Notation "x <- m ;; k" := (bind m (fun x => k))
  (at level 61, m at next level, right associativity) : prog_scope.
Notation "m ;; k" := (bind m (fun _ => k))
  (at level 61, right associativity) : prog_scope.
Open Scope prog_scope.

(* ================================================================== *)
(** * Memory: pointers and the reads the program makes through them     *)
(* ================================================================== *)

(** A [const char *] or [const void *].  [buffer s] points to memory owned
    by a caller (or to a literal) that holds the chars of [s] followed by a
    NUL; the two other non-null pointers are the ones [dataGetter] hands
    out, and what they point to changes with the globals. *)
Inductive pointer :=
| nullptr
| buffer (contents : string)
| addr_serverDataBatteryLevel          (* &serverDataBatteryLevel *)
| addr_serverDataTextString.           (* serverDataTextString.c_str() *)

Definition is_null (p : pointer) : bool :=
  match p with nullptr => true | _ => false end.

(** uint8_t conversion of an [int]. *)
Definition to_uint8 (z : Z) : Z := z mod 256.

Definition char_of_uint8 (v : Z) : ascii := ascii_of_N (Z.to_N (to_uint8 v)).
Definition uint8_of_char (c : ascii) : Z := Z.of_N (N_of_ascii c).

(** The chars stored at [p], up to the NUL that ends the buffer.  The byte
    that follows [serverDataBatteryLevel] in memory is outside the model: a
    read there sees the level byte and then a NUL. *)
Definition chars_at (p : pointer) : M string :=
  fun w => match p with
           | nullptr => None
           | buffer s => Some (s, w)
           | addr_serverDataBatteryLevel =>
               Some (String (char_of_uint8 (serverDataBatteryLevel w)) "", w)
           | addr_serverDataTextString => Some (serverDataTextString w, w)
           end.

(** The chars of [s] before its first NUL. *)
Fixpoint strz (s : string) : string :=
  match s with
  | EmptyString => EmptyString
  | String c r => if Ascii.eqb c zero then EmptyString else String c (strz r)
  end.

(** [std::string(p)], [strlen]-style reading of a C string. *)
Definition read_cstr (p : pointer) : M string :=
  s <- chars_at p ;; ret (strz s).

(** [*static_cast<const uint8_t *>(p)] *)
Definition read_uint8 (p : pointer) : M Z :=
  s <- chars_at p ;;
  ret (match s with
       | EmptyString => 0
       | String c _ => uint8_of_char c
       end).

(** [s.c_str()] of a temporary [std::string]. *)
Definition c_str (s : string) : pointer := buffer s.

(** [std::to_string] of an [int]. *)
Definition to_string (z : Z) : string := NilZero.string_of_int (Z.to_int z).

(* ================================================================== *)
(** * Logging                                                          *)
(* ================================================================== *)

(** [std::cout << prefix << pText << std::endl] *)
Definition cout_line (prefix : string) (pText : pointer) : M unit :=
  text <- read_cstr pText ;; modify (put_cout (prefix ++ text)).

Definition LogDebug (pText : pointer) : M unit :=
  l <- gets logLevel ;;
  if (LogLevel_value l <=? LogLevel_value Debug)%Z
  then cout_line "  DEBUG: " pText else ret tt.

Definition LogInfo (pText : pointer) : M unit :=
  l <- gets logLevel ;;
  if (LogLevel_value l <=? LogLevel_value Verbose)%Z
  then cout_line "   INFO: " pText else ret tt.

Definition LogStatus (pText : pointer) : M unit :=
  l <- gets logLevel ;;
  if (LogLevel_value l <=? LogLevel_value Normal)%Z
  then cout_line " STATUS: " pText else ret tt.

Definition LogWarn (pText : pointer) : M unit := cout_line "WARNING: " pText.
Definition LogError (pText : pointer) : M unit := cout_line "!!ERROR: " pText.
Definition LogFatal (pText : pointer) : M unit := cout_line "**FATAL: " pText.
Definition LogAlways (pText : pointer) : M unit := cout_line "..Log..: " pText.
Definition LogTrace (pText : pointer) : M unit := cout_line "-Trace-: " pText.

(* ================================================================== *)
(** * The data bridge                                                  *)
(* ================================================================== *)

(** [const void *dataGetter(const char *pName)] *)
Definition dataGetter (pName : pointer) : M pointer :=
  if is_null pName then
    LogError (buffer "NULL name sent to server data getter") ;;
    ret nullptr
  else
    strName <- read_cstr pName ;;
    if strName =? "battery/level" then ret addr_serverDataBatteryLevel
    else if strName =? "text/string" then ret addr_serverDataTextString
    else
      name <- read_cstr pName ;;
      LogWarn (c_str ("Unknown name for server data getter request: '"
                      ++ name ++ "'")) ;;
      ret nullptr.

(** [int dataSetter(const char *pName, const void *pData)] *)
Definition dataSetter (pName pData : pointer) : M Z :=
  if is_null pName then
    LogError (buffer "NULL name sent to server data setter") ;;
    ret 0
  else if is_null pData then
    LogError (buffer "NULL pData sent to server data setter") ;;
    ret 0
  else
    strName <- read_cstr pName ;;
    if strName =? "battery/level" then
      v <- read_uint8 pData ;;
      modify (set_serverDataBatteryLevel v) ;;
      level <- gets serverDataBatteryLevel ;;
      LogDebug (c_str ("Server data: battery level set to "
                       ++ to_string level)) ;;
      ret 1
    else if strName =? "text/string" then
      s <- read_cstr pData ;;
      modify (set_serverDataTextString s) ;;
      text <- gets serverDataTextString ;;
      LogDebug (c_str ("Server data: text string set to '" ++ text ++ "'")) ;;
      ret 1
    else
      name <- read_cstr pName ;;
      LogWarn (c_str ("Unknown name for server data setter request: '"
                      ++ name ++ "'")) ;;
      ret 0.

(* ================================================================== *)
(** * What the handlers use of the Gobbledegook library                *)
(* ================================================================== *)

(** Modelled from the spec: [Utils::gvariantFromByteArray] of the missing
    [Utils.cpp], for a C string.  Scenario S1 fixes the encoding: the byte
    array of the chars, without the NUL. *)
Definition gvariantFromByteArray_cstr (p : pointer) : M Variant :=
  s <- read_cstr p ;; ret (VByteArray (list_byte_of_string s)).

(** Modelled from the spec: the same encoding for a [std::string], which
    the library reads through its [c_str()]. *)
Definition gvariantFromByteArray_string (s : string) : M Variant :=
  gvariantFromByteArray_cstr (c_str s).

(** Modelled from the spec: scenario S2 fixes the encoding of a [uint8_t]:
    one byte. *)
Definition gvariantFromByteArray_uint8 (v : Z) : Variant :=
  VByteArray [byte_of_ascii (char_of_uint8 v)].

(** Modelled from the spec: an [int16_t] is sent as its two bytes, low byte
    first (section 4.3: all integers little-endian). *)
Definition gvariantFromByteArray_int16 (v : Z) : Variant :=
  VByteArray [byte_of_ascii (char_of_uint8 v);
              byte_of_ascii (char_of_uint8 (v / 256))].

(** Modelled from the spec: [Utils::stringFromGVariantByteArray] of the
    missing [Utils.cpp]: the std::string made of the bytes of an [ay]
    value. *)
Definition stringFromGVariantByteArray (v : Variant) : M string :=
  match v with
  | VByteArray bytes => ret (string_of_list_byte bytes)
  | _ => crash
  end.

(** Modelled from the spec: GLib's child access on a tuple; section 6 gives
    [WriteValue(bytes, options)] its two parameters. *)
Definition g_variant_get_child_value (v : Variant) (index : nat) : M Variant :=
  match v with
  | VTuple children =>
      match nth_error children index with
      | Some child => ret child
      | None => crash
      end
  | _ => crash
  end.

(** Modelled from the spec: [methodReturnVariant] of the missing
    [GattInterface.h].  Section 4.1: a handler answers the pending call by
    enqueueing a method return; [wrapInTuple] puts the value in a one-element
    tuple, and the [NULL] variant is the empty return. *)
Definition methodReturnVariant (v : Variant) (wrapInTuple : bool) : M unit :=
  modify (put_bus (MethodReturn (if wrapInTuple then VTuple [v] else v))).

(** Modelled from the spec: [methodReturnValue] of the missing
    [GattInterface.h], one definition per argument type: the value is encoded
    as a byte array and returned. *)
Definition methodReturnValue_cstr (p : pointer) (wrapInTuple : bool) : M unit :=
  v <- gvariantFromByteArray_cstr p ;; methodReturnVariant v wrapInTuple.

(** Modelled from the spec: [methodReturnValue] for a [std::string]. *)
Definition methodReturnValue_string (s : string) (wrapInTuple : bool) : M unit :=
  v <- gvariantFromByteArray_string s ;; methodReturnVariant v wrapInTuple.

(** Modelled from the spec: [methodReturnValue] for a [uint8_t]. *)
Definition methodReturnValue_uint8 (v : Z) (wrapInTuple : bool) : M unit :=
  methodReturnVariant (gvariantFromByteArray_uint8 v) wrapInTuple.

(** Modelled from the spec: [methodReturnValue] for an [int16_t]. *)
Definition methodReturnValue_int16 (v : Z) (wrapInTuple : bool) : M unit :=
  methodReturnVariant (gvariantFromByteArray_int16 v) wrapInTuple.

(** Modelled from the spec: [sendChangeNotificationVariant] and
    [sendChangeNotificationValue] of the missing [GattCharacteristic.h].
    Section 4.1: the update path emits [PropertiesChanged { Value }] on the
    characteristic that owns the handler. *)
Definition sendChangeNotificationVariant (path : string) (v : Variant) : M unit :=
  modify (put_bus (PropertiesChanged path v)).

(** Modelled from the spec: [sendChangeNotificationValue] for a C string. *)
Definition sendChangeNotificationValue_cstr (path : string) (p : pointer) : M unit :=
  v <- gvariantFromByteArray_cstr p ;; sendChangeNotificationVariant path v.

(** Modelled from the spec: [sendChangeNotificationValue] for a [uint8_t]. *)
Definition sendChangeNotificationValue_uint8 (path : string) (v : Z) : M unit :=
  sendChangeNotificationVariant path (gvariantFromByteArray_uint8 v).

(** Modelled from the spec: [getDataValue], [getDataPointer] and
    [setDataPointer] of the missing [GattInterface.h].  Section 4.5: handlers
    read and write through the bridge by string keys; the bridge is the pair
    [dataGetter], [dataSetter] that [main] passes to [ggkStart].  A nil
    answer of the getter gives the caller's default. *)
Definition getDataValue_uint8 (pName : pointer) (defaultValue : Z) : M Z :=
  pData <- dataGetter pName ;;
  if is_null pData then ret defaultValue else read_uint8 pData.

(** Modelled from the spec: [getDataPointer], the pointer itself or the
    default. *)
Definition getDataPointer (pName : pointer) (defaultValue : pointer) : M pointer :=
  pData <- dataGetter pName ;;
  ret (if is_null pData then defaultValue else pData).

(** Modelled from the spec: [setDataPointer], true when the bridge accepts
    (section 4.5: 1 = accepted). *)
Definition setDataPointer (pName pData : pointer) : M bool :=
  r <- dataSetter pName pData ;; ret (negb (r =? 0)%Z).

(** Modelled from the spec: [Utils::trim] of the missing [Utils.cpp], white
    space removed at both ends. *)
Definition isspace (c : ascii) : bool :=
  existsb (Ascii.eqb c) [" "; "009"; "010"; "011"; "012"; "013"]%char.

(** Modelled from the spec: [Utils::trim], the left end. *)
Fixpoint ltrim (s : string) : string :=
  match s with
  | EmptyString => EmptyString
  | String c r => if isspace c then ltrim r else s
  end.

(** Modelled from the spec: [Utils::trim], the right end. *)
Fixpoint rtrim (s : string) : string :=
  match s with
  | EmptyString => EmptyString
  | String c r =>
      let r' := rtrim r in
      if isspace c && (r' =? "") then EmptyString else String c r'
  end.

(** Modelled from the spec: [Utils::trim]. *)
Definition trim (s : string) : string := rtrim (ltrim s).

(* ================================================================== *)
(** * The GATT tree                                                    *)
(* ================================================================== *)

(** [self], as far as the method handlers of a characteristic use it: the
    node's identity and its sibling update handler. *)
Record GattCharacteristicSelf := {
  getPath : string;
  callOnUpdatedValue : M bool
}.

(** CHARACTERISTIC_METHOD_CALLBACK_LAMBDA: self and pParameters. *)
Definition MethodCallback : Type := GattCharacteristicSelf -> Variant -> M unit.
(** CHARACTERISTIC_UPDATED_VALUE_CALLBACK_LAMBDA: self, by its path. *)
Definition UpdatedValueCallback : Type := string -> M bool.
(** CHARACTERISTIC_EVENT_CALLBACK_LAMBDA: self, by its path. *)
Definition EventCallback : Type := string -> M unit.
(** DESCRIPTOR_METHOD_CALLBACK_LAMBDA: self (by its path) and pParameters. *)
Definition DescriptorMethodCallback : Type := string -> Variant -> M unit.

Record GattDescriptor := {
  descriptorName : string;
  descriptorUuid : string;
  descriptorFlags : list string;
  descriptorOnReadValue : option DescriptorMethodCallback
}.

Record GattCharacteristic := {
  characteristicName : string;
  characteristicUuid : string;
  characteristicFlags : list string;
  onReadValue : option MethodCallback;
  onWriteValue : option MethodCallback;
  onUpdatedValue : option UpdatedValueCallback;
  onEvent : option (Z * EventCallback);
  descriptors : list GattDescriptor
}.

Record GattService := {
  serviceName : string;
  serviceUuid : string;
  characteristics : list GattCharacteristic
}.

(** The "description" descriptor (0x2901) that four characteristics carry. *)
Definition userDescription (pDescription : string) : GattDescriptor :=
  {| descriptorName := "description";
     descriptorUuid := "2901";
     descriptorFlags := ["read"];
     descriptorOnReadValue := Some (fun _ _ =>
       methodReturnValue_cstr (buffer pDescription) true) |}.

Definition device_mfgr_name : GattCharacteristic :=
  {| characteristicName := "mfgr_name";
     characteristicUuid := "2A29";
     characteristicFlags := ["read"];
     onReadValue := Some (fun self pParameters =>
       methodReturnValue_cstr (buffer "Acme Inc.") true);
     onWriteValue := None;
     onUpdatedValue := None;
     onEvent := None;
     descriptors := [] |}.

Definition device_model_num : GattCharacteristic :=
  {| characteristicName := "model_num";
     characteristicUuid := "2A24";
     characteristicFlags := ["read"];
     onReadValue := Some (fun self pParameters =>
       methodReturnValue_cstr (buffer "Marvin-PA") true);
     onWriteValue := None;
     onUpdatedValue := None;
     onEvent := None;
     descriptors := [] |}.

Definition battery_level : GattCharacteristic :=
  {| characteristicName := "level";
     characteristicUuid := "2A19";
     characteristicFlags := ["read"; "notify"];
     onReadValue := Some (fun self pParameters =>
       batteryLevel <- getDataValue_uint8 (buffer "battery/level") 0 ;;
       methodReturnValue_uint8 batteryLevel true);
     onWriteValue := None;
     onUpdatedValue := Some (fun self =>
       batteryLevel <- getDataValue_uint8 (buffer "battery/level") 0 ;;
       sendChangeNotificationValue_uint8 self batteryLevel ;;
       ret true);
     onEvent := None;
     descriptors := [] |}.

Definition time_current : GattCharacteristic :=
  {| characteristicName := "current";
     characteristicUuid := "2A2B";
     characteristicFlags := ["read"; "notify"];
     onReadValue := Some (fun self pParameters =>
       now <- gets (fun w => gvariantCurrentTime (host w)) ;;
       methodReturnVariant now true);
     onWriteValue := None;
     onUpdatedValue := None;
     onEvent := Some (1, fun self =>
       now <- gets (fun w => gvariantCurrentTime (host w)) ;;
       sendChangeNotificationVariant self now);
     descriptors := [] |}.

Definition time_local : GattCharacteristic :=
  {| characteristicName := "local";
     characteristicUuid := "2A0F";
     characteristicFlags := ["read"];
     onReadValue := Some (fun self pParameters =>
       localTime <- gets (fun w => gvariantLocalTime (host w)) ;;
       methodReturnVariant localTime true);
     onWriteValue := None;
     onUpdatedValue := None;
     onEvent := None;
     descriptors := [] |}.

Definition text_string : GattCharacteristic :=
  {| characteristicName := "string";
     characteristicUuid := "00000002-1E3C-FAD4-74E2-97A033F1BFAA";
     characteristicFlags := ["read"; "write"; "notify"];
     onReadValue := Some (fun self pParameters =>
       pTextString <- getDataPointer (buffer "text/string") (buffer "") ;;
       methodReturnValue_cstr pTextString true);
     onWriteValue := Some (fun self pParameters =>
       pAyBuffer <- g_variant_get_child_value pParameters 0 ;;
       written <- stringFromGVariantByteArray pAyBuffer ;;
       _ <- setDataPointer (buffer "text/string") (c_str written) ;;
       _ <- callOnUpdatedValue self ;;
       methodReturnVariant VNull false);
     onUpdatedValue := Some (fun self =>
       pTextString <- getDataPointer (buffer "text/string") (buffer "") ;;
       sendChangeNotificationValue_cstr self pTextString ;;
       ret true);
     onEvent := None;
     descriptors := [userDescription
       "A mutable text string used for testing. Read and write to me, it tickles!"] |}.

Definition ascii_time_string : GattCharacteristic :=
  {| characteristicName := "string";
     characteristicUuid := "00000002-1E3D-FAD4-74E2-97A033F1BFEE";
     characteristicFlags := ["read"];
     onReadValue := Some (fun self pParameters =>
       timeString <- gets (fun w => trim (asctime_localtime (host w))) ;;
       methodReturnValue_string timeString true);
     onWriteValue := None;
     onUpdatedValue := None;
     onEvent := None;
     descriptors := [userDescription
       "Returns the local time (as reported by POSIX asctime()) each time it is read"] |}.

Definition cpu_count : GattCharacteristic :=
  {| characteristicName := "count";
     characteristicUuid := "0000B002-1E3D-FAD4-74E2-97A033F1BFEE";
     characteristicFlags := ["read"];
     onReadValue := Some (fun self pParameters =>
       count <- gets (fun w => cpuCount (host w)) ;;
       methodReturnValue_int16 count true);
     onWriteValue := None;
     onUpdatedValue := None;
     onEvent := None;
     descriptors := [userDescription
       "This might represent the number of CPUs in the system"] |}.

Definition cpu_model : GattCharacteristic :=
  {| characteristicName := "model";
     characteristicUuid := "0000B003-1E3D-FAD4-74E2-97A033F1BFEE";
     characteristicFlags := ["read"];
     onReadValue := Some (fun self pParameters =>
       model <- gets (fun w => cpuModel (host w)) ;;
       methodReturnValue_string model true);
     onWriteValue := None;
     onUpdatedValue := None;
     onEvent := None;
     descriptors := [userDescription
       "Possibly the model of the CPU in the system"] |}.

(** [void serverConfigurator(ggk::DBusObject &dBusObject)]: the tree the
    chain of begin/end calls declares. *)
Definition serverConfigurator : list GattService :=
  [ {| serviceName := "device"; serviceUuid := "180A";
       characteristics := [device_mfgr_name; device_model_num] |};
    {| serviceName := "battery"; serviceUuid := "180F";
       characteristics := [battery_level] |};
    {| serviceName := "time"; serviceUuid := "1805";
       characteristics := [time_current; time_local] |};
    {| serviceName := "text";
       serviceUuid := "00000001-1E3C-FAD4-74E2-97A033F1BFAA";
       characteristics := [text_string] |};
    {| serviceName := "ascii_time";
       serviceUuid := "00000001-1E3D-FAD4-74E2-97A033F1BFEE";
       characteristics := [ascii_time_string] |};
    {| serviceName := "cpu";
       serviceUuid := "0000B001-1E3D-FAD4-74E2-97A033F1BFEE";
       characteristics := [cpu_count; cpu_model] |} ].

(* ================================================================== *)
(** * The server side: dispatch of D-Bus calls and of update tokens     *)
(* ================================================================== *)

(** Modelled from the spec: section 3, object paths are rooted at an
    installation-provided prefix; [main] names the battery characteristic
    "/com/gobbledegook/battery/level". *)
Definition rootPath : string := "/com/gobbledegook".

(** Modelled from the spec: section 3, children compose by appending a
    segment. *)
Definition characteristicPath (s : GattService) (c : GattCharacteristic) : string :=
  rootPath ++ "/" ++ serviceName s ++ "/" ++ characteristicName c.

(** Modelled from the spec: the lookups of the missing server core.
    Section 4.2: a call or a token is routed to the object published at its
    path; section 3: a child's path appends a segment to its parent's. *)
Fixpoint findCharacteristic (tree : list GattService) (path : string)
  : option GattCharacteristic :=
  match tree with
  | [] => None
  | s :: rest =>
      match find (fun c => characteristicPath s c =? path) (characteristics s) with
      | Some c => Some c
      | None => findCharacteristic rest path
      end
  end.

(** Modelled from the spec: section 3, a descriptor is a direct child of its
    characteristic. *)
Definition descriptorPath (s : GattService) (c : GattCharacteristic)
           (d : GattDescriptor) : string :=
  characteristicPath s c ++ "/" ++ descriptorName d.

(** Modelled from the spec: section 4.2, the descriptor published at a
    path, among those of one service. *)
Fixpoint findDescriptorIn (s : GattService) (cs : list GattCharacteristic)
         (path : string) : option GattDescriptor :=
  match cs with
  | [] => None
  | c :: rest =>
      match find (fun d => descriptorPath s c d =? path) (descriptors c) with
      | Some d => Some d
      | None => findDescriptorIn s rest path
      end
  end.

(** Modelled from the spec: section 4.2, the descriptor published at a
    path. *)
Fixpoint findDescriptor (tree : list GattService) (path : string)
  : option GattDescriptor :=
  match tree with
  | [] => None
  | s :: rest =>
      match findDescriptorIn s (characteristics s) path with
      | Some d => Some d
      | None => findDescriptor rest path
      end
  end.

(** Modelled from the spec: [callOnUpdatedValue] of the missing
    [GattCharacteristic.cpp].  Section 9: a handler reaches its sibling update
    handler through [self]; without one there is nothing to call. *)
Definition callOnUpdatedValue_of (c : GattCharacteristic) (path : string) : M bool :=
  match onUpdatedValue c with
  | Some handler => handler path
  | None => ret false
  end.

(** Modelled from the spec: section 9, the [self] a method handler of [c]
    receives. *)
Definition selfOf (c : GattCharacteristic) (path : string) : GattCharacteristicSelf :=
  {| getPath := path; callOnUpdatedValue := callOnUpdatedValue_of c path |}.

(** Modelled from the spec: section 4.2, method dispatch on a descriptor. *)
Definition callDescriptorMethod (tree : list GattService)
           (path methodName : string) (pParameters : Variant) : M unit :=
  match findDescriptor tree path with
  | None => modify (put_bus (MethodError "org.freedesktop.DBus.Error.UnknownObject"))
  | Some d =>
      let handler :=
        if methodName =? "ReadValue" then descriptorOnReadValue d else None in
      match handler with
      | Some f => f path pParameters
      | None => modify (put_bus (MethodError "org.freedesktop.DBus.Error.UnknownMethod"))
      end
  end.

(** Modelled from the spec: section 4.2, method dispatch: the object at the
    path is looked up, then the method; unknown paths and methods are
    answered with a D-Bus error, known ones run the handler. *)
Definition callMethod (tree : list GattService) (path methodName : string)
           (pParameters : Variant) : M unit :=
  match findCharacteristic tree path with
  | None => callDescriptorMethod tree path methodName pParameters
  | Some c =>
      let handler :=
        if methodName =? "ReadValue" then onReadValue c
        else if methodName =? "WriteValue" then onWriteValue c
        else None in
      match handler with
      | Some f => f (selfOf c path) pParameters
      | None => modify (put_bus (MethodError "org.freedesktop.DBus.Error.UnknownMethod"))
      end
  end.

(** Modelled from the spec: section 6, [ReadValue(options)] called by a
    central on the object at [path]. *)
Definition ReadValue (path : string) (options : Variant) : M unit :=
  callMethod serverConfigurator path "ReadValue" (VTuple [options]).

(** Modelled from the spec: section 6, [WriteValue(bytes, options)] called
    by a central on the object at [path]. *)
Definition WriteValue (path : string) (bytes : list byte) (options : Variant) : M unit :=
  callMethod serverConfigurator path "WriteValue" (VTuple [VByteArray bytes; options]).

(** Modelled from the spec: the queue drain of the missing server loop.
    Section 4.4 step (2): the loop drains the notify queue in FIFO order and
    runs the update handler of each token's owner. *)
Fixpoint processUpdates (tree : list GattService) (tokens : list string) : M unit :=
  match tokens with
  | [] => ret tt
  | path :: rest =>
      match findCharacteristic tree path with
      | Some c => _ <- callOnUpdatedValue_of c path ;; processUpdates tree rest
      | None => processUpdates tree rest
      end
  end.

(** Modelled from the spec: section 4.4 step (2), one drain of the whole
    queue. *)
Definition drainUpdateQueue : M unit :=
  tokens <- gets updateQueue ;;
  modify (set_updateQueue []) ;;
  processUpdates serverConfigurator tokens.

(* ================================================================== *)
(** * The facade, seen from [main]                                      *)
(* ================================================================== *)

(** An outside call is recorded; what it answers comes from [Facade]. *)
Definition call (c : Call) : M unit := modify (put_call c).

(** Modelled from the spec: [ggkNofifyUpdatedCharacteristic] of the missing
    [Gobbledegook.cpp].  Section 3: the notify queue is a FIFO of path tokens;
    a notify call appends one. *)
Definition ggkNofifyUpdatedCharacteristic (path : string) : M unit :=
  call (call_ggkNofifyUpdatedCharacteristic path) ;;
  q <- gets updateQueue ;;
  modify (set_updateQueue (q ++ [path])%list).

(** Modelled from the spec: section 4.4, [triggerShutdown() -> void]; only
    the call is recorded. *)
Definition ggkTriggerShutdown : M unit := call call_ggkTriggerShutdown.

(** What the facade answers to [main] during one run: the result of
    [ggkStart], the successive results of [ggkGetServerRunState], the result
    of [ggkWait] and the result of [ggkGetServerHealth]. *)
Record Facade := {
  ggkStart_result : Z;
  ggkGetServerRunState_results : list GGKServerRunState;
  ggkWait_result : Z;
  ggkGetServerHealth_result : GGKServerHealth
}.

Definition SIGINT : Z := 2.
Definition SIGTERM : Z := 15.

(** [void signalHandler(int signum)] *)
Definition signalHandler (signum : Z) : M unit :=
  if (signum =? SIGINT)%Z then
    LogStatus (buffer "SIGINT recieved, shutting down") ;;
    ggkTriggerShutdown
  else if (signum =? SIGTERM)%Z then
    LogStatus (buffer "SIGTERM recieved, shutting down") ;;
    ggkTriggerShutdown
  else ret tt.

(* ================================================================== *)
(** * [main]                                                           *)
(* ================================================================== *)

Definition kMaxAsyncInitTimeoutMS : Z := 30 * 1000.

(** The command-line loop [for (int i = 1; i < argc; ++i)], on the
    arguments after the program name.  [false] is the [return -1] of the
    last branch. *)
Fixpoint parseArguments (args : list string) : M bool :=
  match args with
  | [] => ret true
  | arg :: rest =>
      if arg =? "-q" then modify (set_logLevel ErrorsOnly) ;; parseArguments rest
      else if arg =? "-v" then modify (set_logLevel Verbose) ;; parseArguments rest
      else if arg =? "-d" then modify (set_logLevel Debug) ;; parseArguments rest
      else
        LogFatal (c_str ("Unknown parameter: '" ++ arg ++ "'")) ;;
        LogFatal (buffer "") ;;
        LogFatal (buffer "Usage: standalone [-q | -v | -d]") ;;
        ret false
  end.

(** The body of the [while] loop: sleep, lower the level, notify.  The
    subtraction and [std::max] are done on [int]; the assignment converts
    back to [uint8_t]. *)
Definition batteryTick : M unit :=
  call (call_sleep_for 15) ;;
  level <- gets serverDataBatteryLevel ;;
  modify (set_serverDataBatteryLevel (to_uint8 (Z.max (level - 1) 0))) ;;
  ggkNofifyUpdatedCharacteristic "/com/gobbledegook/battery/level".

(** [while (ggkGetServerRunState() < EStopping) { ... }] against the run
    states the facade reports.  [true]: the loop was left; [false]: the
    reports ended with the loop still running. *)
Fixpoint batteryLoop (states : list GGKServerRunState) : M bool :=
  match states with
  | [] => ret false
  | state :: rest =>
      call call_ggkGetServerRunState ;;
      if (GGKServerRunState_value state <? GGKServerRunState_value EStopping)%Z
      then batteryTick ;; batteryLoop rest
      else ret true
  end.

Definition registerLoggers : M unit :=
  call (call_ggkLogRegister "Debug") ;;
  call (call_ggkLogRegister "Info") ;;
  call (call_ggkLogRegister "Status") ;;
  call (call_ggkLogRegister "Warn") ;;
  call (call_ggkLogRegister "Error") ;;
  call (call_ggkLogRegister "Fatal") ;;
  call (call_ggkLogRegister "Always") ;;
  call (call_ggkLogRegister "Trace").

(** [int main(int argc, char **ppArgv)].  [argv] lists the argument strings
    with the program name first.  The result is the value [main] returns,
    or [None] while it is still in its loop. *)
Definition main (argv : list string) (facade : Facade) : M (option Z) :=
  parsed <- parseArguments (tl argv) ;;
  if negb parsed then ret (Some (-1)) else
  call (call_signal SIGINT) ;;
  call (call_signal SIGTERM) ;;
  registerLoggers ;;
  call (call_ggkStart "gobbledegook" "Gobbledegook" "Gobbledegook"
                      kMaxAsyncInitTimeoutMS) ;;
  if (ggkStart_result facade =? 0)%Z then ret (Some (-1)) else
  left <- batteryLoop (ggkGetServerRunState_results facade) ;;
  if negb left then ret None else
  call call_ggkWait ;;
  if (ggkWait_result facade =? 0)%Z then ret (Some (-1)) else
  call call_ggkGetServerHealth ;;
  ret (Some (if GGKServerHealth_eqb (ggkGetServerHealth_result facade) EOk
             then 0 else 1)).

(* ================================================================== *)
(** * Vocabulary of the properties                                     *)
(* ================================================================== *)

Definition isFlag (arg : string) : bool :=
  (arg =? "-q") || (arg =? "-v") || (arg =? "-d").

(** The level a flag selects. *)
Definition levelOfFlag (arg : string) : LogLevel :=
  if arg =? "-q" then ErrorsOnly
  else if arg =? "-v" then Verbose
  else if arg =? "-d" then Debug
  else Normal.

Definition isRunning (s : GGKServerRunState) : bool :=
  (GGKServerRunState_value s <? GGKServerRunState_value EStopping)%Z.

Definition isStartCall (c : Call) : bool :=
  match c with call_ggkStart _ _ _ _ => true | _ => false end.

Definition isNotifyCall (path : string) (c : Call) : bool :=
  match c with
  | call_ggkNofifyUpdatedCharacteristic p => p =? path
  | _ => false
  end.

Definition knownName (name : string) : bool :=
  (name =? "battery/level") || (name =? "text/string").

(** The value a computation yields in [w], if the process survives it. *)
Definition valueAt {A} (m : M A) (w : World) : option A :=
  match m w with
  | Some (a, _) => Some a
  | None => None
  end.

(** [w'] differs from [w] at most by lines written to [std::cout]. *)
Definition quiet (w w' : World) : Prop :=
  serverDataBatteryLevel w' = serverDataBatteryLevel w /\
  serverDataTextString w' = serverDataTextString w /\
  logLevel w' = logLevel w /\
  calls w' = calls w /\
  updateQueue w' = updateQueue w /\
  bus w' = bus w /\
  host w' = host w.

Definition batteryLevelPath : string := "/com/gobbledegook/battery/level".
Definition textStringPath : string := "/com/gobbledegook/text/string".
Definition mfgrNamePath : string := "/com/gobbledegook/device/mfgr_name".

(** How many times the battery characteristic was notified. *)
Definition notifyCount (cs : list Call) : nat :=
  List.length (filter (isNotifyCall batteryLevelPath) cs).

Definition noNul (bytes : list byte) : bool :=
  forallb (fun b => negb (Byte.eqb b x00)) bytes.

(* ================================================================== *)
(** * Vocabulary of the further properties                             *)
(* ================================================================== *)

(** The stored values are what the program can put in them: a byte, and a
    string without NUL (every assignment to [serverDataTextString] is from a
    C string). *)
Definition wellFormed (w : World) : Prop :=
  0 <= serverDataBatteryLevel w < 256 /\
  strz (serverDataTextString w) = serverDataTextString w.

(** The outside calls of [main] up to and including [ggkStart], in order. *)
Definition startupCalls : list Call :=
  [call_signal SIGINT; call_signal SIGTERM;
   call_ggkLogRegister "Debug"; call_ggkLogRegister "Info";
   call_ggkLogRegister "Status"; call_ggkLogRegister "Warn";
   call_ggkLogRegister "Error"; call_ggkLogRegister "Fatal";
   call_ggkLogRegister "Always"; call_ggkLogRegister "Trace";
   call_ggkStart "gobbledegook" "Gobbledegook" "Gobbledegook"
                 kMaxAsyncInitTimeoutMS].

(** The outside calls of one full turn of the loop of [main]. *)
Definition turnCalls : list Call :=
  [call_ggkGetServerRunState; call_sleep_for 15;
   call_ggkNofifyUpdatedCharacteristic batteryLevelPath].

(** How many reports say "running" before the first that does not. *)
Fixpoint runningPrefix (states : list GGKServerRunState) : nat :=
  match states with
  | [] => O
  | state :: rest => if isRunning state then S (runningPrefix rest) else O
  end.

(** Some report makes the loop end. *)
Definition leavesLoop (states : list GGKServerRunState) : bool :=
  existsb (fun s => negb (isRunning s)) states.

(** The outside calls of the whole loop against [states]. *)
Definition loopCalls (states : list GGKServerRunState) : list Call :=
  (List.concat (repeat turnCalls (runningPrefix states))
   ++ (if leavesLoop states then [call_ggkGetServerRunState] else []))%list.

(** The three lines [main] prints for an argument it does not know. *)
Definition fatalLines (arg : string) : list string :=
  ["**FATAL: " ++ strz ("Unknown parameter: '" ++ arg ++ "'");
   "**FATAL: ";
   "**FATAL: Usage: standalone [-q | -v | -d]"].

(** A logger writes when the current level is at most its threshold. *)
Definition verboseEnough (threshold : LogLevel) (w : World) : bool :=
  (LogLevel_value (logLevel w) <=? LogLevel_value threshold)%Z.

(** The paths of the tree's characteristics, in declaration order. *)
Definition characteristicPaths (tree : list GattService) : list string :=
  flat_map (fun s => map (characteristicPath s) (characteristics s)) tree.

(** The bytes before the first zero byte. *)
Fixpoint untilNul (bytes : list byte) : list byte :=
  match bytes with
  | [] => []
  | b :: rest => if Byte.eqb b x00 then [] else b :: untilNul rest
  end.

(** The one byte that encodes a battery level. *)
Definition levelByte (v : Z) : byte := byte_of_ascii (char_of_uint8 v).

(* ================================================================== *)
(** * Properties                                                       *)
(* ================================================================== *)

(** ** Chars, bytes and C strings *)

Lemma uint8_of_char_range (c : ascii) : 0 <= uint8_of_char c < 256.
Proof.
  unfold uint8_of_char.
  pose proof (N_ascii_bounded c). lia.
Qed.

Lemma to_uint8_small (v : Z) : 0 <= v < 256 -> to_uint8 v = v.
Proof. intros H. unfold to_uint8. apply Z.mod_small. exact H. Qed.

Lemma uint8_char_uint8 (v : Z) :
  0 <= v < 256 -> uint8_of_char (char_of_uint8 v) = v.
Proof.
  intros H. unfold uint8_of_char, char_of_uint8.
  rewrite (to_uint8_small v H).
  rewrite N_ascii_embedding by lia.
  lia.
Qed.

Lemma char_uint8_char (c : ascii) : char_of_uint8 (uint8_of_char c) = c.
Proof.
  unfold char_of_uint8.
  rewrite (to_uint8_small _ (uint8_of_char_range c)).
  unfold uint8_of_char. rewrite N2Z.id. apply ascii_N_embedding.
Qed.

Lemma strz_idempotent (s : string) : strz (strz s) = strz s.
Proof.
  induction s as [|c r IH]; simpl; [reflexivity|].
  destruct (Ascii.eqb c zero) eqn:E; simpl; [reflexivity|].
  rewrite E, IH. reflexivity.
Qed.

Lemma byte_of_ascii_zero (b : byte) :
  Byte.eqb b x00 = false -> Ascii.eqb (ascii_of_byte b) zero = false.
Proof.
  intros H. apply Ascii.eqb_neq. intros E.
  apply (f_equal byte_of_ascii) in E. rewrite byte_of_ascii_of_byte in E.
  subst b. discriminate H.
Qed.

Lemma strz_noNul (bytes : list byte) :
  noNul bytes = true ->
  strz (string_of_list_byte bytes) = string_of_list_byte bytes.
Proof.
  induction bytes as [|b r IH]; simpl; [reflexivity|].
  intros H. apply andb_true_iff in H. destruct H as [Hb Hr].
  apply negb_true_iff in Hb.
  rewrite (byte_of_ascii_zero b Hb).
  change (string_of_list_ascii (map ascii_of_byte r))
    with (string_of_list_byte r).
  rewrite (IH Hr). reflexivity.
Qed.

(** ** Running computations step by step *)

Lemma bind_run {A B} (m : M A) (k : A -> M B) (w w1 : World) (a : A) :
  m w = Some (a, w1) -> bind m k w = k a w1.
Proof. intros H. unfold bind. rewrite H. reflexivity. Qed.

Lemma bind_gets {A B} (f : World -> A) (k : A -> M B) (w : World) :
  bind (gets f) k w = k (f w) w.
Proof. reflexivity. Qed.

Lemma bind_modify {B} (f : World -> World) (k : unit -> M B) (w : World) :
  bind (modify f) k w = k tt (f w).
Proof. reflexivity. Qed.

Lemma bind_ret {A B} (a : A) (k : A -> M B) (w : World) :
  bind (ret a) k w = k a w.
Proof. reflexivity. Qed.

Ltac run_with H := rewrite (bind_run _ _ _ _ _ H).
Ltac run := repeat (rewrite bind_gets || rewrite bind_modify || rewrite bind_ret).

Lemma valueAt_run {A} (m : M A) (w : World) (a : A) :
  valueAt m w = Some a -> exists w1, m w = Some (a, w1).
Proof.
  unfold valueAt. destruct (m w) as [[a' w1]|]; [|discriminate].
  intros H. injection H as ->. exists w1. reflexivity.
Qed.

(** ** Reads *)

Lemma chars_at_run (p : pointer) (w : World) :
  is_null p = false -> exists s, chars_at p w = Some (s, w).
Proof.
  destruct p; simpl; intros H; try discriminate H; eexists; reflexivity.
Qed.

Lemma read_cstr_run (p : pointer) (w : World) :
  is_null p = false -> exists s, read_cstr p w = Some (s, w).
Proof.
  intros H. destruct (chars_at_run p w H) as [s E].
  exists (strz s). unfold read_cstr. run_with E. reflexivity.
Qed.

Lemma read_uint8_run (p : pointer) (w : World) :
  is_null p = false ->
  exists v, read_uint8 p w = Some (v, w) /\ 0 <= v < 256.
Proof.
  intros H. destruct (chars_at_run p w H) as [s E].
  unfold read_uint8.
  destruct s as [|c r]; eexists; (split; [run_with E; reflexivity|]).
  - lia.
  - apply uint8_of_char_range.
Qed.

Lemma read_cstr_value (p : pointer) (w : World) (s : string) :
  valueAt (read_cstr p) w = Some s ->
  is_null p = false /\ read_cstr p w = Some (s, w).
Proof.
  intros H. destruct p; try discriminate H; (split; [reflexivity|]).
  - unfold valueAt in H. simpl in H. injection H as <-. reflexivity.
  - unfold valueAt in H. simpl in H. injection H as <-. reflexivity.
  - unfold valueAt in H. simpl in H. injection H as <-. reflexivity.
Qed.

Lemma read_uint8_value (p : pointer) (w : World) (v : Z) :
  valueAt (read_uint8 p) w = Some v ->
  is_null p = false /\ read_uint8 p w = Some (v, w).
Proof.
  intros H. unfold valueAt in H.
  destruct p; try discriminate H; (split; [reflexivity|]);
    match goal with
    | |- read_uint8 ?q _ = _ =>
        destruct (read_uint8_run q w eq_refl) as [v' [E _]]
    end;
    rewrite E in H; injection H as <-; exact E.
Qed.

Lemma read_cstr_strz (p : pointer) (w w1 : World) (s : string) :
  read_cstr p w = Some (s, w1) -> strz s = s.
Proof.
  unfold read_cstr, bind.
  destruct (chars_at p w) as [[s0 w0]|]; [|discriminate].
  unfold ret. intros H. injection H as <- _. apply strz_idempotent.
Qed.

(** ** Loggers only write to [std::cout] *)

Lemma quiet_refl (w : World) : quiet w w.
Proof. repeat split. Qed.

Lemma quiet_trans (w1 w2 w3 : World) : quiet w1 w2 -> quiet w2 w3 -> quiet w1 w3.
Proof.
  unfold quiet. intros H1 H2.
  decompose [and] H1. decompose [and] H2.
  repeat split; congruence.
Qed.

Lemma cout_line_quiet (prefix s : string) (w : World) :
  exists w', cout_line prefix (buffer s) w = Some (tt, w') /\ quiet w w'.
Proof.
  exists (put_cout (prefix ++ strz s) w). split; [reflexivity|repeat split].
Qed.

Lemma LogDebug_quiet (s : string) (w : World) :
  exists w', LogDebug (buffer s) w = Some (tt, w') /\ quiet w w'.
Proof.
  unfold LogDebug. rewrite bind_gets.
  destruct (LogLevel_value (logLevel w) <=? LogLevel_value Debug)%Z.
  - apply cout_line_quiet.
  - exists w. split; [reflexivity|apply quiet_refl].
Qed.

Lemma LogWarn_quiet (s : string) (w : World) :
  exists w', LogWarn (buffer s) w = Some (tt, w') /\ quiet w w'.
Proof. apply cout_line_quiet. Qed.

Lemma LogError_quiet (s : string) (w : World) :
  exists w', LogError (buffer s) w = Some (tt, w') /\ quiet w w'.
Proof. apply cout_line_quiet. Qed.

Lemma LogFatal_quiet (s : string) (w : World) :
  exists w', LogFatal (buffer s) w = Some (tt, w') /\ quiet w w'.
Proof. apply cout_line_quiet. Qed.

(** ** The data bridge, case by case *)

Lemma dataGetter_null (w : World) :
  exists w', dataGetter nullptr w = Some (nullptr, w') /\ quiet w w'.
Proof.
  unfold dataGetter. simpl.
  destruct (LogError_quiet "NULL name sent to server data getter" w)
    as [w' [E Q]].
  run_with E. run. exists w'. split; [reflexivity|exact Q].
Qed.

Lemma dataGetter_battery (pName : pointer) (w : World) :
  valueAt (read_cstr pName) w = Some "battery/level" ->
  dataGetter pName w = Some (addr_serverDataBatteryLevel, w).
Proof.
  intros H. apply read_cstr_value in H. destruct H as [N E].
  unfold dataGetter. rewrite N. run_with E. reflexivity.
Qed.

Lemma dataGetter_text (pName : pointer) (w : World) :
  valueAt (read_cstr pName) w = Some "text/string" ->
  dataGetter pName w = Some (addr_serverDataTextString, w).
Proof.
  intros H. apply read_cstr_value in H. destruct H as [N E].
  unfold dataGetter. rewrite N. run_with E. reflexivity.
Qed.

Lemma dataGetter_unknown (pName : pointer) (w : World) (name : string) :
  valueAt (read_cstr pName) w = Some name -> knownName name = false ->
  exists w', dataGetter pName w = Some (nullptr, w') /\ quiet w w'.
Proof.
  intros H K. apply read_cstr_value in H. destruct H as [N E].
  apply orb_false_iff in K. destruct K as [K1 K2].
  unfold dataGetter. rewrite N. run_with E. rewrite K1, K2. run_with E.
  match goal with
  | |- context [LogWarn (c_str ?s)] =>
      destruct (LogWarn_quiet s w) as [w' [L Q]]
  end.
  unfold c_str. run_with L. run. exists w'. split; [reflexivity|exact Q].
Qed.

Lemma dataSetter_null_name (pData : pointer) (w : World) :
  exists w', dataSetter nullptr pData w = Some (0, w') /\ quiet w w'.
Proof.
  unfold dataSetter. simpl.
  destruct (LogError_quiet "NULL name sent to server data setter" w)
    as [w' [E Q]].
  run_with E. run. exists w'. split; [reflexivity|exact Q].
Qed.

Lemma dataSetter_null_data (pName : pointer) (w : World) :
  is_null pName = false ->
  exists w', dataSetter pName nullptr w = Some (0, w') /\ quiet w w'.
Proof.
  intros N. unfold dataSetter. rewrite N. simpl.
  destruct (LogError_quiet "NULL pData sent to server data setter" w)
    as [w' [E Q]].
  run_with E. run. exists w'. split; [reflexivity|exact Q].
Qed.

Lemma dataSetter_unknown (pName pData : pointer) (w : World) (name : string) :
  is_null pData = false ->
  valueAt (read_cstr pName) w = Some name -> knownName name = false ->
  exists w', dataSetter pName pData w = Some (0, w') /\ quiet w w'.
Proof.
  intros D H K. apply read_cstr_value in H. destruct H as [N E].
  apply orb_false_iff in K. destruct K as [K1 K2].
  unfold dataSetter. rewrite N, D. run_with E. rewrite K1, K2. run_with E.
  match goal with
  | |- context [LogWarn (c_str ?s)] =>
      destruct (LogWarn_quiet s w) as [w' [L Q]]
  end.
  unfold c_str. run_with L. run. exists w'. split; [reflexivity|exact Q].
Qed.

Lemma dataSetter_battery (pName pData : pointer) (w : World) (v : Z) :
  valueAt (read_cstr pName) w = Some "battery/level" ->
  valueAt (read_uint8 pData) w = Some v ->
  exists w', dataSetter pName pData w = Some (1, w') /\
             quiet (set_serverDataBatteryLevel v w) w'.
Proof.
  intros H V. apply read_cstr_value in H. destruct H as [N E].
  apply read_uint8_value in V. destruct V as [D R].
  unfold dataSetter. rewrite N, D. run_with E.
  change ("battery/level" =? "battery/level") with true.
  cbv iota. run_with R. run.
  match goal with
  | |- context [bind (LogDebug (c_str ?s)) _ ?w0] =>
      destruct (LogDebug_quiet s w0) as [w' [L Q]]
  end.
  unfold c_str. run_with L. run. exists w'. split; [reflexivity|exact Q].
Qed.

Lemma dataSetter_text (pName pData : pointer) (w : World) (s : string) :
  valueAt (read_cstr pName) w = Some "text/string" ->
  valueAt (read_cstr pData) w = Some s ->
  exists w', dataSetter pName pData w = Some (1, w') /\
             quiet (set_serverDataTextString s w) w'.
Proof.
  intros H V. apply read_cstr_value in H. destruct H as [N E].
  apply read_cstr_value in V. destruct V as [D R].
  unfold dataSetter. rewrite N, D. run_with E.
  change ("text/string" =? "battery/level") with false.
  change ("text/string" =? "text/string") with true.
  cbv iota. run_with R. run.
  match goal with
  | |- context [bind (LogDebug (c_str ?t)) _ ?w0] =>
      destruct (LogDebug_quiet t w0) as [w' [L Q]]
  end.
  unfold c_str. run_with L. run. exists w'. split; [reflexivity|exact Q].
Qed.

(** ** The handlers *)

Lemma find_mfgr_name :
  findCharacteristic serverConfigurator mfgrNamePath = Some device_mfgr_name.
Proof. reflexivity. Qed.

Lemma find_battery_level :
  findCharacteristic serverConfigurator batteryLevelPath = Some battery_level.
Proof. reflexivity. Qed.

Lemma find_text_string :
  findCharacteristic serverConfigurator textStringPath = Some text_string.
Proof. reflexivity. Qed.

Lemma getDataValue_uint8_battery (defaultValue : Z) (w : World) :
  getDataValue_uint8 (buffer "battery/level") defaultValue w
  = Some (uint8_of_char (char_of_uint8 (serverDataBatteryLevel w)), w).
Proof.
  unfold getDataValue_uint8.
  run_with (dataGetter_battery (buffer "battery/level") w eq_refl).
  reflexivity.
Qed.

Lemma getDataPointer_text (defaultValue : pointer) (w : World) :
  getDataPointer (buffer "text/string") defaultValue w
  = Some (addr_serverDataTextString, w).
Proof.
  unfold getDataPointer.
  run_with (dataGetter_text (buffer "text/string") w eq_refl).
  reflexivity.
Qed.

Lemma setDataPointer_run (pName pData : pointer) (w w1 : World) (r : Z) :
  dataSetter pName pData w = Some (r, w1) ->
  setDataPointer pName pData w = Some (negb (r =? 0)%Z, w1).
Proof. intros H. unfold setDataPointer. run_with H. reflexivity. Qed.

Lemma battery_level_onUpdatedValue (path : string) (w : World) :
  callOnUpdatedValue_of battery_level path w
  = Some (true,
          put_bus (PropertiesChanged path
                     (gvariantFromByteArray_uint8 (serverDataBatteryLevel w))) w).
Proof.
  unfold callOnUpdatedValue_of, battery_level, onUpdatedValue.
  run_with (getDataValue_uint8_battery 0 w).
  unfold sendChangeNotificationValue_uint8, gvariantFromByteArray_uint8.
  rewrite char_uint8_char. reflexivity.
Qed.

Lemma text_string_onUpdatedValue (path : string) (w : World) :
  callOnUpdatedValue_of text_string path w
  = Some (true,
          put_bus (PropertiesChanged path
                     (VByteArray (list_byte_of_string
                                    (strz (serverDataTextString w))))) w).
Proof.
  unfold callOnUpdatedValue_of, text_string, onUpdatedValue.
  run_with (getDataPointer_text (buffer "") w).
  reflexivity.
Qed.

Lemma ReadValue_text_string (options : Variant) (w : World) :
  ReadValue textStringPath options w
  = Some (tt,
          put_bus (MethodReturn
                     (VTuple [VByteArray (list_byte_of_string
                                            (strz (serverDataTextString w)))])) w).
Proof.
  unfold ReadValue, callMethod. rewrite find_text_string.
  change ("ReadValue" =? "ReadValue") with true.
  unfold text_string, onReadValue.
  run_with (getDataPointer_text (buffer "") w).
  reflexivity.
Qed.

Lemma WriteValue_text_string (bytes : list byte) (options : Variant) (w : World) :
  exists w1,
    WriteValue textStringPath bytes options w = Some (tt, w1) /\
    serverDataTextString w1 = strz (string_of_list_byte bytes) /\
    bus w1 = (bus w ++
              [PropertiesChanged textStringPath
                 (VByteArray (list_byte_of_string
                                (strz (string_of_list_byte bytes))));
               MethodReturn VNull])%list /\
    serverDataBatteryLevel w1 = serverDataBatteryLevel w /\
    logLevel w1 = logLevel w /\
    calls w1 = calls w /\
    updateQueue w1 = updateQueue w.
Proof.
  unfold WriteValue, callMethod. rewrite find_text_string.
  change ("WriteValue" =? "ReadValue") with false.
  change ("WriteValue" =? "WriteValue") with true.
  set (self := selfOf text_string textStringPath).
  unfold text_string, onWriteValue.
  unfold g_variant_get_child_value, nth_error. run.
  unfold stringFromGVariantByteArray. run.
  destruct (dataSetter_text (buffer "text/string")
              (c_str (string_of_list_byte bytes)) w
              (strz (string_of_list_byte bytes)) eq_refl eq_refl)
    as [w0 [S Q]].
  run_with (setDataPointer_run _ _ _ _ _ S).
  subst self. unfold selfOf, callOnUpdatedValue.
  run_with (text_string_onUpdatedValue textStringPath w0).
  unfold methodReturnVariant.
  destruct Q as (Q1 & Q2 & Q3 & Q4 & Q5 & Q6 & Q7).
  eexists. split; [reflexivity|].
  simpl in *. rewrite Q2, Q6, <- app_assoc, strz_idempotent.
  repeat split; assumption.
Qed.

Lemma knownName_cases (name : string) :
  knownName name = true -> name = "battery/level" \/ name = "text/string".
Proof.
  unfold knownName. intros H. apply orb_true_iff in H.
  destruct H as [H|H]; apply String.eqb_eq in H; auto.
Qed.

Lemma dataGetter_total (pName : pointer) (w : World) :
  exists q w', dataGetter pName w = Some (q, w') /\ quiet w w'.
Proof.
  destruct (is_null pName) eqn:N.
  - destruct pName; try discriminate N.
    destruct (dataGetter_null w) as [w' [E Q]]. eauto.
  - destruct (read_cstr_run pName w N) as [name R].
    assert (V : valueAt (read_cstr pName) w = Some name)
      by (unfold valueAt; rewrite R; reflexivity).
    destruct (knownName name) eqn:K.
    + destruct (knownName_cases name K) as [-> | ->].
      * exists addr_serverDataBatteryLevel, w.
        split; [apply dataGetter_battery; exact V|apply quiet_refl].
      * exists addr_serverDataTextString, w.
        split; [apply dataGetter_text; exact V|apply quiet_refl].
    + destruct (dataGetter_unknown pName w name V K) as [w' [E Q]]. eauto.
Qed.

Lemma dataSetter_total (pName pData : pointer) (w : World) :
  exists r w', dataSetter pName pData w = Some (r, w').
Proof.
  destruct (is_null pName) eqn:N.
  - destruct pName; try discriminate N.
    destruct (dataSetter_null_name pData w) as [w' [E _]]. eauto.
  - destruct (is_null pData) eqn:D.
    + destruct pData; try discriminate D.
      destruct (dataSetter_null_data pName w N) as [w' [E _]]. eauto.
    + destruct (read_cstr_run pName w N) as [name R].
      assert (V : valueAt (read_cstr pName) w = Some name)
        by (unfold valueAt; rewrite R; reflexivity).
      destruct (knownName name) eqn:K.
      * destruct (knownName_cases name K) as [-> | ->].
        -- destruct (read_uint8_run pData w D) as [v [U _]].
           assert (V' : valueAt (read_uint8 pData) w = Some v)
             by (unfold valueAt; rewrite U; reflexivity).
           destruct (dataSetter_battery pName pData w v V V') as [w' [E _]].
           eauto.
        -- destruct (read_cstr_run pData w D) as [s U].
           assert (V' : valueAt (read_cstr pData) w = Some s)
             by (unfold valueAt; rewrite U; reflexivity).
           destruct (dataSetter_text pName pData w s V V') as [w' [E _]].
           eauto.
      * destruct (dataSetter_unknown pName pData w name D V K) as [w' [E _]].
        eauto.
Qed.

(** ** The claims about the data bridge *)

(** C3 -- Data-bridge round trip.  For each of the two keys, when
    [dataSetter] is called with the key and a non-null pointer and answers 1,
    the next [dataGetter] on the key answers a non-null pointer, and what is
    read through it is what was written: for "battery/level" the byte [*p],
    for "text/string" the C string at [p]. *)
Theorem data_bridge_roundtrip (key : string) (p : pointer) (w w1 : World) :
  key = "battery/level" \/ key = "text/string" ->
  p <> nullptr ->
  dataSetter (buffer key) p w = Some (1, w1) ->
  exists q,
    dataGetter (buffer key) w1 = Some (q, w1) /\ q <> nullptr /\
    (key = "battery/level" ->
     exists v, valueAt (read_uint8 p) w = Some v /\
               valueAt (read_uint8 q) w1 = Some v) /\
    (key = "text/string" ->
     exists s, valueAt (read_cstr p) w = Some s /\
               valueAt (read_cstr q) w1 = Some s).
Proof.
  intros K P S.
  assert (D : is_null p = false) by (destruct p; [contradiction|reflexivity..]).
  destruct K as [-> | ->].
  - exists addr_serverDataBatteryLevel.
    split; [apply dataGetter_battery; reflexivity|].
    split; [discriminate|].
    split; [intros _|discriminate].
    destruct (read_uint8_run p w D) as [v [U R]].
    assert (V : valueAt (read_uint8 p) w = Some v)
      by (unfold valueAt; rewrite U; reflexivity).
    destruct (dataSetter_battery (buffer "battery/level") p w v eq_refl V)
      as [w' [E Q]].
    rewrite S in E. injection E as <-.
    destruct Q as [Q _]. simpl in Q.
    exists v. split; [exact V|].
    unfold valueAt. simpl. rewrite Q, (uint8_char_uint8 v R). reflexivity.
  - exists addr_serverDataTextString.
    split; [apply dataGetter_text; reflexivity|].
    split; [discriminate|].
    split; [discriminate|intros _].
    destruct (read_cstr_run p w D) as [s U].
    assert (V : valueAt (read_cstr p) w = Some s)
      by (unfold valueAt; rewrite U; reflexivity).
    destruct (dataSetter_text (buffer "text/string") p w s eq_refl V)
      as [w' [E Q]].
    rewrite S in E. injection E as <-.
    destruct Q as (_ & Q & _). simpl in Q.
    exists s. split; [exact V|].
    unfold valueAt. simpl. rewrite Q, (read_cstr_strz p w w s U). reflexivity.
Qed.

Lemma data_bridge_roundtrip_witness :
  exists q,
    dataGetter (buffer "text/string")
      (set_serverDataTextString "Hi" initialWorld)
    = Some (q, set_serverDataTextString "Hi" initialWorld) /\
    q <> nullptr /\
    ("text/string" = "battery/level" ->
     exists v, valueAt (read_uint8 (buffer "Hi")) initialWorld = Some v /\
               valueAt (read_uint8 q)
                 (set_serverDataTextString "Hi" initialWorld) = Some v) /\
    ("text/string" = "text/string" ->
     exists s, valueAt (read_cstr (buffer "Hi")) initialWorld = Some s /\
               valueAt (read_cstr q)
                 (set_serverDataTextString "Hi" initialWorld) = Some s).
Proof.
  apply (data_bridge_roundtrip "text/string" (buffer "Hi") initialWorld).
  - right. reflexivity.
  - discriminate.
  - reflexivity.
Defined.

(** C4 -- Data-bridge failure behaviour.  Neither function ever kills the
    process.  [dataGetter] answers nil when the name is null or names neither
    value; [dataSetter] answers 0 when the name or the data is null or the
    name is unknown, and then both stored values are as before. *)
Theorem data_bridge_rejects (pName pData : pointer) (w : World) :
  (dataGetter pName w <> None /\ dataSetter pName pData w <> None) /\
  ((pName = nullptr \/
    exists name, valueAt (read_cstr pName) w = Some name /\
                 knownName name = false) ->
   exists w', dataGetter pName w = Some (nullptr, w') /\
              serverDataBatteryLevel w' = serverDataBatteryLevel w /\
              serverDataTextString w' = serverDataTextString w) /\
  ((pName = nullptr \/ pData = nullptr \/
    exists name, valueAt (read_cstr pName) w = Some name /\
                 knownName name = false) ->
   exists w', dataSetter pName pData w = Some (0, w') /\
              serverDataBatteryLevel w' = serverDataBatteryLevel w /\
              serverDataTextString w' = serverDataTextString w).
Proof.
  split; [split|split].
  - destruct (dataGetter_total pName w) as (q & w' & E & _).
    rewrite E. discriminate.
  - destruct (dataSetter_total pName pData w) as (r & w' & E).
    rewrite E. discriminate.
  - intros [-> | (name & V & K)].
    + destruct (dataGetter_null w) as (w' & E & Q1 & Q2 & _). eauto.
    + destruct (dataGetter_unknown pName w name V K)
        as (w' & E & Q1 & Q2 & _). eauto.
  - intros [-> | [-> | (name & V & K)]].
    + destruct (dataSetter_null_name pData w) as (w' & E & Q1 & Q2 & _). eauto.
    + destruct (is_null pName) eqn:N.
      * destruct pName; try discriminate N.
        destruct (dataSetter_null_name nullptr w) as (w' & E & Q1 & Q2 & _).
        eauto.
      * destruct (dataSetter_null_data pName w N) as (w' & E & Q1 & Q2 & _).
        eauto.
    + destruct (is_null pData) eqn:D.
      * destruct pData; try discriminate D.
        destruct (dataSetter_null_data pName w (proj1 (read_cstr_value _ _ _ V)))
          as (w' & E & Q1 & Q2 & _).
        eauto.
      * destruct (dataSetter_unknown pName pData w name D V K)
          as (w' & E & Q1 & Q2 & _).
        eauto.
Qed.

Lemma data_bridge_rejects_witness :
  exists w', dataSetter (buffer "does/not/exist") (buffer "x") initialWorld
             = Some (0, w') /\
             serverDataBatteryLevel w' = serverDataBatteryLevel initialWorld /\
             serverDataTextString w' = serverDataTextString initialWorld.
Proof.
  apply (data_bridge_rejects (buffer "does/not/exist") (buffer "x") initialWorld).
  right. right. exists "does/not/exist". split; reflexivity.
Defined.

(** C10 -- Setter frame.  An accepted [dataSetter] call on "battery/level"
    changes [serverDataBatteryLevel] and nothing else of the state, so
    [serverDataTextString] is as before; an accepted call on "text/string"
    changes [serverDataTextString] and leaves [serverDataBatteryLevel] as it
    was.  (A line on [std::cout] at Debug level is the only other effect.) *)
Theorem dataSetter_frame (pName pData : pointer) (w w1 : World) :
  dataSetter pName pData w = Some (1, w1) ->
  (valueAt (read_cstr pName) w = Some "battery/level" ->
   serverDataTextString w1 = serverDataTextString w /\
   quiet (set_serverDataBatteryLevel (serverDataBatteryLevel w1) w) w1) /\
  (valueAt (read_cstr pName) w = Some "text/string" ->
   serverDataBatteryLevel w1 = serverDataBatteryLevel w /\
   quiet (set_serverDataTextString (serverDataTextString w1) w) w1).
Proof.
  intros S. split; intros V.
  - assert (D : is_null pData = false).
    { destruct pData; try reflexivity.
      destruct (dataSetter_null_data pName w (proj1 (read_cstr_value _ _ _ V)))
        as (w' & E & _).
      rewrite S in E. discriminate E. }
    destruct (read_uint8_run pData w D) as [v [U _]].
    assert (V' : valueAt (read_uint8 pData) w = Some v)
      by (unfold valueAt; rewrite U; reflexivity).
    destruct (dataSetter_battery pName pData w v V V') as [w' [E Q]].
    rewrite S in E. injection E as <-.
    destruct Q as (Q1 & Q2 & Q3 & Q4 & Q5 & Q6 & Q7). simpl in *.
    split; [exact Q2|]. repeat split; assumption.
  - assert (D : is_null pData = false).
    { destruct pData; try reflexivity.
      destruct (dataSetter_null_data pName w (proj1 (read_cstr_value _ _ _ V)))
        as (w' & E & _).
      rewrite S in E. discriminate E. }
    destruct (read_cstr_run pData w D) as [s U].
    assert (V' : valueAt (read_cstr pData) w = Some s)
      by (unfold valueAt; rewrite U; reflexivity).
    destruct (dataSetter_text pName pData w s V V') as [w' [E Q]].
    rewrite S in E. injection E as <-.
    destruct Q as (Q1 & Q2 & Q3 & Q4 & Q5 & Q6 & Q7). simpl in *.
    split; [exact Q1|]. repeat split; assumption.
Qed.

Lemma dataSetter_frame_witness :
  serverDataTextString
    (set_serverDataBatteryLevel 77 initialWorld)
  = serverDataTextString initialWorld /\
  quiet (set_serverDataBatteryLevel
           (serverDataBatteryLevel (set_serverDataBatteryLevel 77 initialWorld))
           initialWorld)
        (set_serverDataBatteryLevel 77 initialWorld).
Proof.
  apply (dataSetter_frame (buffer "battery/level") (buffer "M") initialWorld
           (set_serverDataBatteryLevel 77 initialWorld)).
  - reflexivity.
  - reflexivity.
Defined.

(** ** The claims about the handlers *)

(** C7 -- Device Info read.  The tree declares service 180A with
    characteristic 2A29, flag read only, and every ReadValue on it is answered
    by a method return that carries the bytes 41 63 6d 65 20 49 6e 63 2e. *)
Theorem device_info_read :
  (exists s, In s serverConfigurator /\ serviceUuid s = "180A" /\
             In device_mfgr_name (characteristics s) /\
             characteristicPath s device_mfgr_name = mfgrNamePath) /\
  characteristicUuid device_mfgr_name = "2A29" /\
  characteristicFlags device_mfgr_name = ["read"] /\
  findCharacteristic serverConfigurator mfgrNamePath = Some device_mfgr_name /\
  forall (options : Variant) (w : World),
    ReadValue mfgrNamePath options w
    = Some (tt,
            put_bus (MethodReturn
                       (VTuple [VByteArray
                                  [x41; x63; x6d; x65; x20; x49; x6e; x63; x2e]]))
                    w).
Proof.
  split.
  { eexists. split; [left; reflexivity|].
    split; [reflexivity|]. split; [left; reflexivity|reflexivity]. }
  repeat split.
Qed.

(** C6 -- Write-reply obligation.  The text characteristic has the flag write
    and not write-without-response.  Every WriteValue on it (1) commits the
    written value -- the stored text is the written bytes read as a C string,
    hence the written bytes themselves when none of them is zero --,
    (2) runs the characteristic's own update handler, which notifies the
    text then stored, and (3) after that enqueues an empty method return: no
    write goes unanswered. *)
Theorem text_write_replies (bytes : list byte) (options : Variant) (w : World) :
  In "write" (characteristicFlags text_string) /\
  ~ In "write-without-response" (characteristicFlags text_string) /\
  (forall w0 : World,
     callOnUpdatedValue (selfOf text_string textStringPath) w0
     = Some (true,
             put_bus (PropertiesChanged textStringPath
                        (VByteArray (list_byte_of_string
                                       (strz (serverDataTextString w0))))) w0)) /\
  exists w1,
    WriteValue textStringPath bytes options w = Some (tt, w1) /\
    serverDataTextString w1 = strz (string_of_list_byte bytes) /\
    (noNul bytes = true ->
     list_byte_of_string (serverDataTextString w1) = bytes) /\
    bus w1 = (bus w ++
              [PropertiesChanged textStringPath
                 (VByteArray (list_byte_of_string (serverDataTextString w1)));
               MethodReturn VNull])%list.
Proof.
  split; [simpl; auto|].
  split.
  { simpl. intros [H|[H|[H|[]]]]; discriminate H. }
  split.
  { intros w0. unfold selfOf, callOnUpdatedValue.
    apply text_string_onUpdatedValue. }
  destruct (WriteValue_text_string bytes options w)
    as (w1 & E & T & B & _).
  exists w1. split; [exact E|]. split; [exact T|].
  split.
  - intros N. rewrite T, (strz_noNul bytes N).
    apply list_byte_of_string_of_list_byte.
  - rewrite B, T. reflexivity.
Qed.

Lemma text_write_replies_witness :
  list_byte_of_string
    (serverDataTextString
       (set_serverDataTextString "Hi" initialWorld)) = [x48; x69].
Proof.
  destruct (text_write_replies [x48; x69] VNull initialWorld)
    as (_ & _ & _ & w1 & E & _ & N & _).
  injection E as <-.
  apply N. reflexivity.
Defined.

(** C1 -- Text write round trip.  The text characteristic has the flags
    read, write and notify and serves "Hello, world!" at the start.  After a
    central has written the bytes 48 69, the next ReadValue is answered with
    the bytes 48 69: the write handler stored them under "text/string" and the
    read handler returns what the bridge holds under that key. *)
Theorem text_write_roundtrip :
  characteristicFlags text_string = ["read"; "write"; "notify"] /\
  serverDataTextString initialWorld = "Hello, world!" /\
  forall (options options' : Variant) (w : World),
    exists w1 w2,
      WriteValue textStringPath [x48; x69] options w = Some (tt, w1) /\
      valueAt (dataGetter (buffer "text/string")) w1
      = Some addr_serverDataTextString /\
      valueAt (read_cstr addr_serverDataTextString) w1 = Some "Hi" /\
      ReadValue textStringPath options' w1 = Some (tt, w2) /\
      bus w2 = (bus w1 ++ [MethodReturn (VTuple [VByteArray [x48; x69]])])%list.
Proof.
  split; [reflexivity|]. split; [reflexivity|].
  intros options options' w.
  destruct (WriteValue_text_string [x48; x69] options w)
    as (w1 & E & T & _).
  exists w1. eexists. split; [exact E|].
  split; [unfold valueAt; rewrite dataGetter_text; reflexivity|].
  split; [unfold valueAt; simpl; rewrite T; reflexivity|].
  split; [apply ReadValue_text_string|].
  simpl. rewrite T. reflexivity.
Qed.

(** C5 -- Battery notify value.  Characteristic 2A19 has the flags read and
    notify and its value starts at 78.  Once the application has set the
    level to 77 and called the notify function with the characteristic's
    path, the update handler reads the level that is then current through the
    bridge, and draining the queue emits one PropertiesChanged, with
    Value = [0x4D], and nothing else.  One turn of the loop of [main] from
    the initial state is such a step. *)
Theorem battery_notify_value :
  characteristicUuid battery_level = "2A19" /\
  characteristicFlags battery_level = ["read"; "notify"] /\
  serverDataBatteryLevel initialWorld = 78 /\
  findCharacteristic serverConfigurator batteryLevelPath = Some battery_level /\
  (exists w1 w2,
     batteryTick initialWorld = Some (tt, w1) /\
     serverDataBatteryLevel w1 = 77 /\
     drainUpdateQueue w1 = Some (tt, w2) /\
     bus w2 = [PropertiesChanged batteryLevelPath (VByteArray [x4d])]) /\
  forall w : World,
    updateQueue w = [] ->
    exists w1 w2,
      (modify (set_serverDataBatteryLevel 77) ;;
       ggkNofifyUpdatedCharacteristic batteryLevelPath) w = Some (tt, w1) /\
      valueAt (getDataValue_uint8 (buffer "battery/level") 0) w1 = Some 77 /\
      drainUpdateQueue w1 = Some (tt, w2) /\
      bus w2 = (bus w ++ [PropertiesChanged batteryLevelPath (VByteArray [x4d])])%list /\
      updateQueue w2 = [] /\
      serverDataBatteryLevel w2 = 77.
Proof.
  repeat (split; [reflexivity|]).
  split.
  { eexists. eexists. repeat split. }
  intros w Q.
  exists (set_updateQueue [batteryLevelPath]
            (put_call (call_ggkNofifyUpdatedCharacteristic batteryLevelPath)
               (set_serverDataBatteryLevel 77 w))).
  eexists.
  split.
  { unfold ggkNofifyUpdatedCharacteristic, call. run.
    simpl updateQueue. rewrite Q. reflexivity. }
  split.
  { unfold valueAt. rewrite getDataValue_uint8_battery. reflexivity. }
  split.
  { unfold drainUpdateQueue. run. simpl updateQueue.
    unfold processUpdates. rewrite find_battery_level.
    match goal with
    | |- context [bind (callOnUpdatedValue_of battery_level ?p) _ ?w0] =>
        run_with (battery_level_onUpdatedValue p w0)
    end.
    reflexivity. }
  repeat split.
Qed.

Lemma battery_notify_value_witness :
  exists w1 w2,
    (modify (set_serverDataBatteryLevel 77) ;;
     ggkNofifyUpdatedCharacteristic batteryLevelPath) initialWorld
    = Some (tt, w1) /\
    valueAt (getDataValue_uint8 (buffer "battery/level") 0) w1 = Some 77 /\
    drainUpdateQueue w1 = Some (tt, w2) /\
    bus w2 = (bus initialWorld
              ++ [PropertiesChanged batteryLevelPath (VByteArray [x4d])])%list /\
    updateQueue w2 = [] /\
    serverDataBatteryLevel w2 = 77.
Proof.
  apply battery_notify_value. reflexivity.
Defined.

(** ** [main]: the command line *)

Lemma last_default {A} (l : list A) (a d d' : A) :
  last (a :: l) d = last (a :: l) d'.
Proof.
  revert a. induction l as [|b l IH]; intros a; [reflexivity|].
  change (last (b :: l) d = last (b :: l) d'). apply IH.
Qed.

Lemma last_cons {A} (l : list A) (a d : A) : last (a :: l) d = last l a.
Proof.
  destruct l as [|b l]; [reflexivity|].
  change (last (b :: l) d = last (b :: l) a). apply last_default.
Qed.

Lemma isFlag_cases (arg : string) :
  isFlag arg = true -> arg = "-q" \/ arg = "-v" \/ arg = "-d".
Proof.
  unfold isFlag. intros H.
  apply orb_true_iff in H. destruct H as [H|H].
  - apply orb_true_iff in H. destruct H as [H|H];
      apply String.eqb_eq in H; auto.
  - apply String.eqb_eq in H; auto.
Qed.

Lemma parseArguments_flags (args : list string) (w : World) :
  forallb isFlag args = true ->
  exists w', parseArguments args w = Some (true, w') /\
             logLevel w' = last (map levelOfFlag args) (logLevel w) /\
             serverDataBatteryLevel w' = serverDataBatteryLevel w /\
             calls w' = calls w.
Proof.
  revert w. induction args as [|arg rest IH]; intros w H.
  - exists w. repeat split.
  - simpl in H. apply andb_true_iff in H. destruct H as [F R].
    change (map levelOfFlag (arg :: rest))
      with (levelOfFlag arg :: map levelOfFlag rest).
    rewrite last_cons.
    destruct (isFlag_cases arg F) as [-> | [-> | ->]].
    + destruct (IH (set_logLevel ErrorsOnly w) R) as (w' & E & L & B & C).
      exists w'. split; [exact E|]. repeat split; assumption.
    + destruct (IH (set_logLevel Verbose w) R) as (w' & E & L & B & C).
      exists w'. split; [exact E|]. repeat split; assumption.
    + destruct (IH (set_logLevel Debug w) R) as (w' & E & L & B & C).
      exists w'. split; [exact E|]. repeat split; assumption.
Qed.

Lemma parseArguments_unknown (args : list string) (w : World) :
  existsb (fun a => negb (isFlag a)) args = true ->
  exists w', parseArguments args w = Some (false, w') /\ calls w' = calls w.
Proof.
  revert w. induction args as [|arg rest IH]; intros w H; [discriminate H|].
  simpl in H. destruct (isFlag arg) eqn:F.
  - simpl in H.
    destruct (isFlag_cases arg F) as [-> | [-> | ->]].
    + destruct (IH (set_logLevel ErrorsOnly w) H) as (w' & E & C). eauto.
    + destruct (IH (set_logLevel Verbose w) H) as (w' & E & C). eauto.
    + destruct (IH (set_logLevel Debug w) H) as (w' & E & C). eauto.
  - unfold isFlag in F.
    apply orb_false_iff in F. destruct F as [F F3].
    apply orb_false_iff in F. destruct F as [F1 F2].
    simpl parseArguments. rewrite F1, F2, F3.
    destruct (LogFatal_quiet ("Unknown parameter: '" ++ arg ++ "'") w)
      as (w1 & E1 & Q1).
    destruct (LogFatal_quiet "" w1) as (w2 & E2 & Q2).
    destruct (LogFatal_quiet "Usage: standalone [-q | -v | -d]" w2)
      as (w3 & E3 & Q3).
    unfold c_str. run_with E1. run_with E2. run_with E3.
    exists w3. split; [reflexivity|].
    destruct (quiet_trans _ _ _ (quiet_trans _ _ _ Q1 Q2) Q3)
      as (_ & _ & _ & C & _).
    exact C.
Qed.

(** ** [main]: the battery loop *)

Lemma batteryTick_run (w : World) :
  batteryTick w
  = Some (tt,
          set_updateQueue (updateQueue w ++ [batteryLevelPath])%list
            (put_call (call_ggkNofifyUpdatedCharacteristic batteryLevelPath)
               (set_serverDataBatteryLevel
                  (to_uint8 (Z.max (serverDataBatteryLevel w - 1) 0))
                  (put_call (call_sleep_for 15) w)))).
Proof. reflexivity. Qed.

Lemma batteryTick_level (l : Z) :
  0 <= l < 256 ->
  to_uint8 (Z.max (l - 1) 0) = Z.max (l - 1) 0 /\
  0 <= Z.max (l - 1) 0 < 256.
Proof. intros H. split; [apply to_uint8_small|]; lia. Qed.

Lemma notifyCount_app (cs cs' : list Call) :
  notifyCount (cs ++ cs') = (notifyCount cs + notifyCount cs')%nat.
Proof. unfold notifyCount. rewrite filter_app, List.length_app. reflexivity. Qed.

Lemma batteryLoop_cons (state : GGKServerRunState)
      (rest : list GGKServerRunState) (w : World) :
  batteryLoop (state :: rest) w
  = if isRunning state
    then bind batteryTick (fun _ => batteryLoop rest)
              (put_call call_ggkGetServerRunState w)
    else Some (true, put_call call_ggkGetServerRunState w).
Proof. destruct state; reflexivity. Qed.

Lemma batteryLoop_running (states : list GGKServerRunState) (w : World) :
  forallb isRunning states = true ->
  0 <= serverDataBatteryLevel w < 256 ->
  exists w',
    batteryLoop states w = Some (false, w') /\
    serverDataBatteryLevel w'
    = Z.max (serverDataBatteryLevel w - Z.of_nat (List.length states)) 0 /\
    notifyCount (calls w') = (notifyCount (calls w) + List.length states)%nat /\
    serverDataTextString w' = serverDataTextString w.
Proof.
  revert w. induction states as [|state rest IH]; intros w R B.
  - exists w. simpl. repeat split; [lia|lia].
  - simpl in R. apply andb_true_iff in R. destruct R as [R1 R2].
    rewrite batteryLoop_cons, R1.
    run_with (batteryTick_run (put_call call_ggkGetServerRunState w)).
    match goal with
    | |- context [batteryLoop rest ?w0] =>
        destruct (IH w0 R2) as (w' & E & L & N & T)
    end.
    { simpl. destruct (batteryTick_level _ B) as [U V]. rewrite U. exact V. }
    exists w'. split; [exact E|].
    simpl in L, N, T.
    destruct (batteryTick_level _ B) as [U _]. rewrite U in L.
    repeat rewrite notifyCount_app in N.
    unfold notifyCount in *. simpl in N |- *.
    split; [lia|]. split; [lia|exact T].
Qed.

Lemma batteryLoop_total (states : list GGKServerRunState) (w : World) :
  exists w',
    batteryLoop states w
    = Some (existsb (fun s => negb (isRunning s)) states, w') /\
    logLevel w' = logLevel w.
Proof.
  revert w. induction states as [|state rest IH]; intros w.
  - exists w. split; reflexivity.
  - rewrite batteryLoop_cons. simpl existsb.
    destruct (isRunning state).
    + run_with (batteryTick_run (put_call call_ggkGetServerRunState w)).
      match goal with
      | |- context [batteryLoop rest ?w0] =>
          destruct (IH w0) as (w' & E & L)
      end.
      exists w'. split; [exact E|exact L].
    + eexists. split; reflexivity.
Qed.

Lemma registerLoggers_run (w : World) :
  registerLoggers w
  = Some (tt,
          put_call (call_ggkLogRegister "Trace")
            (put_call (call_ggkLogRegister "Always")
               (put_call (call_ggkLogRegister "Fatal")
                  (put_call (call_ggkLogRegister "Error")
                     (put_call (call_ggkLogRegister "Warn")
                        (put_call (call_ggkLogRegister "Status")
                           (put_call (call_ggkLogRegister "Info")
                              (put_call (call_ggkLogRegister "Debug") w)))))))).
Proof. reflexivity. Qed.

Lemma main_after_parse (argv : list string) (facade : Facade) (w w0 : World) :
  parseArguments (tl argv) w = Some (true, w0) ->
  exists w1,
    logLevel w1 = logLevel w0 /\
    main argv facade w
    = if (ggkStart_result facade =? 0)%Z then Some (Some (-1), w1)
      else match batteryLoop (ggkGetServerRunState_results facade) w1 with
           | None => None
           | Some (false, w2) => Some (None, w2)
           | Some (true, w2) =>
               if (ggkWait_result facade =? 0)%Z
               then Some (Some (-1), put_call call_ggkWait w2)
               else Some (Some (if GGKServerHealth_eqb
                                     (ggkGetServerHealth_result facade) EOk
                                then 0 else 1),
                          put_call call_ggkGetServerHealth
                            (put_call call_ggkWait w2))
           end.
Proof.
  intros P. eexists. split; [|unfold main; run_with P].
  2: { change (negb true) with false. cbv iota.
       unfold call. run. run_with (registerLoggers_run
         (put_call (call_signal SIGTERM) (put_call (call_signal SIGINT) w0))).
       run.
       destruct (ggkStart_result facade =? 0)%Z; [reflexivity|].
       unfold bind at 1.
       destruct (batteryLoop _ _) as [[[|] w2]|]; [|reflexivity|reflexivity].
       change (negb true) with false. cbv iota. run.
       destruct (ggkWait_result facade =? 0)%Z; reflexivity. }
  reflexivity.
Qed.

(** ** The claims about [main] *)

(** C2 -- Battery ticker clamp.  The level starts at 78.  One turn of the
    loop replaces it by max(level - 1, 0) and notifies the battery
    characteristic.  Hence after n turns the level is max(level - n, 0): it
    goes down by one per turn until it is 0 and is 0 from then on, never 255,
    and the notify call is made in every turn, also when the level is 0. *)
Theorem battery_ticker (states : list GGKServerRunState) (w : World) :
  forallb isRunning states = true ->
  0 <= serverDataBatteryLevel w < 256 ->
  serverDataBatteryLevel initialWorld = 78 /\
  (exists w1,
     batteryTick w = Some (tt, w1) /\
     serverDataBatteryLevel w1 = Z.max (serverDataBatteryLevel w - 1) 0 /\
     (0 < serverDataBatteryLevel w ->
      serverDataBatteryLevel w1 = serverDataBatteryLevel w - 1) /\
     (serverDataBatteryLevel w = 0 -> serverDataBatteryLevel w1 = 0) /\
     calls w1 = (calls w ++
                 [call_sleep_for 15;
                  call_ggkNofifyUpdatedCharacteristic
                    "/com/gobbledegook/battery/level"])%list) /\
  exists w',
    batteryLoop states w = Some (false, w') /\
    serverDataBatteryLevel w'
    = Z.max (serverDataBatteryLevel w - Z.of_nat (List.length states)) 0 /\
    (serverDataBatteryLevel w <= Z.of_nat (List.length states) ->
     serverDataBatteryLevel w' = 0) /\
    0 <= serverDataBatteryLevel w' <= serverDataBatteryLevel w /\
    notifyCount (calls w') = (notifyCount (calls w) + List.length states)%nat.
Proof.
  intros R B. split; [reflexivity|]. split.
  - eexists. split; [apply batteryTick_run|].
    destruct (batteryTick_level _ B) as [U _].
    simpl. rewrite U, <- app_assoc.
    repeat split; lia.
  - destruct (batteryLoop_running states w R B) as (w' & E & L & N & _).
    exists w'. split; [exact E|]. split; [exact L|].
    split; [lia|]. split; [lia|exact N].
Qed.

Lemma battery_ticker_witness :
  exists w',
    batteryLoop (repeat ERunning 100) initialWorld = Some (false, w') /\
    serverDataBatteryLevel w' = 0 /\
    notifyCount (calls w') = 100%nat.
Proof.
  destruct (battery_ticker (repeat ERunning 100) initialWorld)
    as (_ & _ & w' & E & L & _ & _ & N).
  - reflexivity.
  - simpl. lia.
  - exists w'. split; [exact E|]. split; [rewrite L|rewrite N]; reflexivity.
Defined.

(** C8 -- Exit codes.  With a well-formed command line, [main] returns -1
    when [ggkStart] fails or [ggkWait] answers false, and otherwise 0 when
    the final health is [EOk] and 1 when it is not.  So a return of 0 always
    comes with a final health of [EOk], a health other than [EOk] always
    gives a non-zero result, and when the facade reports a failed start or a
    failed wait only together with a health other than [EOk], the result is 0
    exactly when the final health is [EOk]. *)
Theorem main_exit_code (argv : list string) (facade : Facade) (w : World) :
  forallb isFlag (tl argv) = true ->
  (ggkStart_result facade = 0 ->
   exists w', main argv facade w = Some (Some (-1), w')) /\
  (ggkStart_result facade <> 0 ->
   existsb (fun s => negb (isRunning s))
           (ggkGetServerRunState_results facade) = true ->
   (ggkWait_result facade = 0 ->
    exists w', main argv facade w = Some (Some (-1), w')) /\
   (ggkWait_result facade <> 0 ->
    (ggkGetServerHealth_result facade = EOk ->
     exists w', main argv facade w = Some (Some 0, w')) /\
    (ggkGetServerHealth_result facade <> EOk ->
     exists w', main argv facade w = Some (Some 1, w')))) /\
  (forall (code : Z) (w' : World),
     main argv facade w = Some (Some code, w') ->
     (code = 0 -> ggkGetServerHealth_result facade = EOk) /\
     (ggkGetServerHealth_result facade <> EOk -> code <> 0) /\
     ((ggkStart_result facade = 0 -> ggkGetServerHealth_result facade <> EOk) ->
      (ggkWait_result facade = 0 -> ggkGetServerHealth_result facade <> EOk) ->
      (code = 0 <-> ggkGetServerHealth_result facade = EOk))).
Proof.
  intros F.
  destruct (parseArguments_flags (tl argv) w F) as (w0 & P & _).
  destruct (main_after_parse argv facade w w0 P) as (w1 & _ & M).
  destruct (batteryLoop_total (ggkGetServerRunState_results facade) w1)
    as (w2 & L & _).
  rewrite L in M. clear L P F.
  destruct (Z.eqb_spec (ggkStart_result facade) 0) as [S|S];
    [|destruct (existsb _ (ggkGetServerRunState_results facade));
      [destruct (Z.eqb_spec (ggkWait_result facade) 0) as [W|W];
       [|destruct (ggkGetServerHealth_result facade) eqn:H; simpl in M]|]];
    rewrite M; clear M;
    (split; [intros; try contradiction; try discriminate; eauto|]);
    (split;
     [intros; try contradiction; try discriminate;
      repeat split; intros; try contradiction; try discriminate; eauto|]);
    intros code w' E; injection E as <- <- || discriminate E;
    repeat split; intros; try discriminate; try reflexivity;
      try contradiction; try congruence; try tauto.
Qed.

Lemma main_exit_code_witness :
  exists w',
    main ["standalone"; "-v"]
         {| ggkStart_result := 1;
            ggkGetServerRunState_results := [ERunning; EStopping];
            ggkWait_result := 1;
            ggkGetServerHealth_result := EFailedRun |} initialWorld
    = Some (Some 1, w').
Proof.
  apply (main_exit_code ["standalone"; "-v"]
           {| ggkStart_result := 1;
              ggkGetServerRunState_results := [ERunning; EStopping];
              ggkWait_result := 1;
              ggkGetServerHealth_result := EFailedRun |} initialWorld);
    try reflexivity; simpl; discriminate.
Defined.

(** C9 -- Command-line parsing.  When some argument after the program name
    is none of "-q", "-v", "-d", [main] returns -1 and has made no outside
    call at all, so [ggkStart] was not called.  Otherwise the log level is the
    one of the last flag -- ErrorsOnly for "-q", Verbose for "-v", Debug for
    "-d" -- and with no flag it keeps its initial value, Normal. *)
Theorem main_command_line (argv : list string) (facade : Facade) (w : World) :
  logLevel initialWorld = Normal /\
  levelOfFlag "-q" = ErrorsOnly /\
  levelOfFlag "-v" = Verbose /\
  levelOfFlag "-d" = Debug /\
  (existsb (fun a => negb (isFlag a)) (tl argv) = true ->
   exists w',
     main argv facade w = Some (Some (-1), w') /\
     calls w' = calls w /\
     existsb isStartCall (calls w') = existsb isStartCall (calls w)) /\
  (forallb isFlag (tl argv) = true ->
   exists r w',
     main argv facade w = Some (r, w') /\
     logLevel w' = last (map levelOfFlag (tl argv)) (logLevel w)).
Proof.
  repeat (split; [reflexivity|]). split.
  - intros U.
    destruct (parseArguments_unknown (tl argv) w U) as (w' & P & C).
    exists w'. unfold main. run_with P.
    split; [reflexivity|]. split; [exact C|rewrite C; reflexivity].
  - intros F.
    destruct (parseArguments_flags (tl argv) w F) as (w0 & P & L & _).
    destruct (main_after_parse argv facade w w0 P) as (w1 & L1 & M).
    destruct (batteryLoop_total (ggkGetServerRunState_results facade) w1)
      as (w2 & B & L2).
    rewrite B in M. rewrite M.
    assert (G : logLevel w2 = last (map levelOfFlag (tl argv)) (logLevel w))
      by congruence.
    assert (G1 : logLevel w1 = last (map levelOfFlag (tl argv)) (logLevel w))
      by congruence.
    destruct (ggkStart_result facade =? 0)%Z; [eauto|].
    destruct (existsb _ _); [|eauto].
    destruct (ggkWait_result facade =? 0)%Z; eauto.
Qed.

Lemma main_command_line_witness :
  exists w',
    main ["standalone"; "-d"; "--help"]
         {| ggkStart_result := 1;
            ggkGetServerRunState_results := [EStopped];
            ggkWait_result := 1;
            ggkGetServerHealth_result := EOk |} initialWorld
    = Some (Some (-1), w') /\
    calls w' = calls initialWorld /\
    existsb isStartCall (calls w') = existsb isStartCall (calls initialWorld).
Proof.
  apply (main_command_line ["standalone"; "-d"; "--help"]
           {| ggkStart_result := 1;
              ggkGetServerRunState_results := [EStopped];
              ggkWait_result := 1;
              ggkGetServerHealth_result := EOk |} initialWorld).
  reflexivity.
Defined.

(** ** Runs on concrete inputs *)

Example run_no_flag :
  option_map (fun r => (fst r, logLevel (snd r)))
             (parseArguments [] initialWorld)
  = Some (true, Normal).
Proof. reflexivity. Qed.

Example run_flags :
  option_map (fun r => (fst r, logLevel (snd r)))
             (parseArguments ["-q"; "-d"; "-v"] initialWorld)
  = Some (true, Verbose).
Proof. reflexivity. Qed.

Example run_stopped_failed :
  valueAt (main ["standalone"; "-q"]
                {| ggkStart_result := 1;
                   ggkGetServerRunState_results := [ERunning; ERunning; EStopped];
                   ggkWait_result := 0;
                   ggkGetServerHealth_result := EFailedRun |}) initialWorld
  = Some (Some (-1)).
Proof. reflexivity. Qed.

Example run_write_with_nul :
  option_map (fun r => serverDataTextString (snd r))
             (WriteValue textStringPath [x48; x00; x69] VNull initialWorld)
  = Some "H".
Proof. reflexivity. Qed.

Example run_battery_read :
  option_map (fun r => bus (snd r))
             (ReadValue batteryLevelPath VNull initialWorld)
  = Some [MethodReturn (VTuple [VByteArray [x4e]])].
Proof. reflexivity. Qed.

Example run_unknown_object :
  option_map (fun r => bus (snd r))
             (ReadValue "/com/gobbledegook/does/not/exist" VNull initialWorld)
  = Some [MethodError "org.freedesktop.DBus.Error.UnknownObject"].
Proof. reflexivity. Qed.

(* ================================================================== *)
(** * Further properties                                               *)
(* ================================================================== *)

(** ** Loggers and the signal handler *)

(** X1 -- Log filtering.  [LogDebug] writes only at level Debug, [LogInfo]
    at Debug and Verbose, [LogStatus] at every level but ErrorsOnly; the five
    other loggers write at every level, ErrorsOnly included.  A logger that
    writes appends one line, its prefix followed by the text, and one that
    does not leaves the state untouched. *)
Theorem loggers_filter (s : string) (w : World) :
  LogDebug (buffer s) w
  = Some (tt, match logLevel w with
              | Debug => put_cout ("  DEBUG: " ++ strz s) w
              | _ => w
              end) /\
  LogInfo (buffer s) w
  = Some (tt, match logLevel w with
              | Debug | Verbose => put_cout ("   INFO: " ++ strz s) w
              | _ => w
              end) /\
  LogStatus (buffer s) w
  = Some (tt, match logLevel w with
              | ErrorsOnly => w
              | _ => put_cout (" STATUS: " ++ strz s) w
              end) /\
  LogWarn (buffer s) w = Some (tt, put_cout ("WARNING: " ++ strz s) w) /\
  LogError (buffer s) w = Some (tt, put_cout ("!!ERROR: " ++ strz s) w) /\
  LogFatal (buffer s) w = Some (tt, put_cout ("**FATAL: " ++ strz s) w) /\
  LogAlways (buffer s) w = Some (tt, put_cout ("..Log..: " ++ strz s) w) /\
  LogTrace (buffer s) w = Some (tt, put_cout ("-Trace-: " ++ strz s) w).
Proof.
  unfold LogDebug, LogInfo, LogStatus. rewrite !bind_gets.
  destruct (logLevel w); repeat split.
Qed.

(** X2 -- Signal handler.  On SIGINT and on SIGTERM the handler asks the
    server to shut down, once, and reports it on the status log (so not at
    level ErrorsOnly); on any other signal it does nothing at all.  It never
    touches the served values. *)
Theorem signalHandler_effect (signum : Z) (w : World) :
  exists w',
    signalHandler signum w = Some (tt, w') /\
    serverDataBatteryLevel w' = serverDataBatteryLevel w /\
    serverDataTextString w' = serverDataTextString w /\
    (signum = SIGINT \/ signum = SIGTERM ->
     calls w' = (calls w ++ [call_ggkTriggerShutdown])%list /\
     cout w' = if verboseEnough Normal w
               then (cout w ++
                     [(" STATUS: "
                       ++ (if (signum =? SIGINT)%Z then "SIGINT" else "SIGTERM")
                       ++ " recieved, shutting down")%string])%list
               else cout w) /\
    (signum <> SIGINT -> signum <> SIGTERM -> w' = w).
Proof.
  unfold signalHandler, verboseEnough.
  destruct (Z.eqb_spec signum SIGINT) as [I|I];
    [|destruct (Z.eqb_spec signum SIGTERM) as [T|T]].
  - unfold LogStatus. rewrite bind_run with (a := tt)
      (w1 := if (LogLevel_value (logLevel w) <=? LogLevel_value Normal)%Z
             then put_cout (" STATUS: SIGINT recieved, shutting down") w
             else w).
    + eexists. split; [reflexivity|].
      destruct (LogLevel_value (logLevel w) <=? LogLevel_value Normal)%Z;
        repeat split; intros; try contradiction; reflexivity.
    + rewrite bind_gets.
      destruct (LogLevel_value (logLevel w) <=? LogLevel_value Normal)%Z;
        reflexivity.
  - unfold LogStatus. rewrite bind_run with (a := tt)
      (w1 := if (LogLevel_value (logLevel w) <=? LogLevel_value Normal)%Z
             then put_cout (" STATUS: SIGTERM recieved, shutting down") w
             else w).
    + eexists. split; [reflexivity|].
      destruct (LogLevel_value (logLevel w) <=? LogLevel_value Normal)%Z;
        repeat split; intros; try contradiction; reflexivity.
    + rewrite bind_gets.
      destruct (LogLevel_value (logLevel w) <=? LogLevel_value Normal)%Z;
        reflexivity.
  - exists w. split; [reflexivity|].
    split; [reflexivity|]. split; [reflexivity|].
    split; [intros [E|E]; contradiction|reflexivity].
Qed.

Lemma signalHandler_effect_witness :
  calls (put_call call_ggkTriggerShutdown
           (put_cout " STATUS: SIGTERM recieved, shutting down" initialWorld))
  = (calls initialWorld ++ [call_ggkTriggerShutdown])%list.
Proof.
  destruct (signalHandler_effect SIGTERM initialWorld)
    as (w' & E & _ & _ & H & _).
  injection E as <-.
  apply H. right. reflexivity.
Defined.

(** ** The data bridge: what each call does exactly *)

Lemma strz_append (a b : string) : strz a = a -> strz (a ++ b) = a ++ strz b.
Proof.
  induction a as [|c r IH]; intros H; [reflexivity|].
  simpl in H |- *. destruct (Ascii.eqb c zero); [discriminate H|].
  injection H as H. rewrite (IH H). reflexivity.
Qed.

Lemma strz_append_clean (a b : string) :
  strz a = a -> strz b = b -> strz (a ++ b) = a ++ b.
Proof. intros A B. rewrite (strz_append a b A), B. reflexivity. Qed.

Lemma strz_string_of_uint (d : Decimal.uint) :
  strz (NilEmpty.string_of_uint d) = NilEmpty.string_of_uint d.
Proof. induction d; simpl; try rewrite IHd; reflexivity. Qed.

Lemma strz_to_string (z : Z) : strz (to_string z) = to_string z.
Proof.
  unfold to_string, NilZero.string_of_int, NilZero.string_of_uint.
  destruct (Z.to_int z) as [d|d].
  - destruct d; try reflexivity;
      match goal with
      | |- strz (NilEmpty.string_of_uint ?x) = _ => apply (strz_string_of_uint x)
      end.
  - change (strz (String "-" (match d with
                               | Decimal.Nil => "0"
                               | _ => NilEmpty.string_of_uint d
                               end))
            = String "-" (match d with
                          | Decimal.Nil => "0"
                          | _ => NilEmpty.string_of_uint d
                          end)).
    simpl strz. f_equal.
    destruct d; try reflexivity;
      match goal with
      | |- strz (NilEmpty.string_of_uint ?x) = _ => apply (strz_string_of_uint x)
      end.
Qed.

Lemma cout_line_exact (prefix s : string) (w : World) :
  cout_line prefix (buffer s) w = Some (tt, put_cout (prefix ++ strz s) w).
Proof. reflexivity. Qed.

Lemma LogDebug_exact (s : string) (w : World) :
  LogDebug (buffer s) w
  = Some (tt, if verboseEnough Debug w
              then put_cout ("  DEBUG: " ++ strz s) w else w).
Proof.
  unfold LogDebug, verboseEnough. rewrite bind_gets.
  destruct (LogLevel_value (logLevel w) <=? LogLevel_value Debug)%Z;
    reflexivity.
Qed.

Lemma dataGetter_null_exact (w : World) :
  dataGetter nullptr w
  = Some (nullptr, put_cout "!!ERROR: NULL name sent to server data getter" w).
Proof. reflexivity. Qed.

Lemma dataGetter_unknown_exact (pName : pointer) (w : World) (name : string) :
  valueAt (read_cstr pName) w = Some name -> knownName name = false ->
  dataGetter pName w
  = Some (nullptr,
          put_cout ("WARNING: Unknown name for server data getter request: '"
                    ++ name ++ "'") w).
Proof.
  intros H K. apply read_cstr_value in H. destruct H as [N E].
  pose proof (read_cstr_strz _ _ _ _ E) as Z.
  apply orb_false_iff in K. destruct K as [K1 K2].
  unfold dataGetter. rewrite N. run_with E. rewrite K1, K2. run_with E.
  unfold c_str, LogWarn.
  rewrite (bind_run _ _ _ _ _ (cout_line_exact _ _ _)). run.
  rewrite (strz_append_clean
             "Unknown name for server data getter request: '" (name ++ "'")
             eq_refl (strz_append_clean name "'" Z eq_refl)).
  reflexivity.
Qed.

Lemma dataSetter_null_name_exact (pData : pointer) (w : World) :
  dataSetter nullptr pData w
  = Some (0, put_cout "!!ERROR: NULL name sent to server data setter" w).
Proof. reflexivity. Qed.

Lemma dataSetter_null_data_exact (pName : pointer) (w : World) :
  is_null pName = false ->
  dataSetter pName nullptr w
  = Some (0, put_cout "!!ERROR: NULL pData sent to server data setter" w).
Proof. intros N. unfold dataSetter. rewrite N. reflexivity. Qed.

Lemma dataSetter_unknown_exact (pName pData : pointer) (w : World)
      (name : string) :
  is_null pData = false ->
  valueAt (read_cstr pName) w = Some name -> knownName name = false ->
  dataSetter pName pData w
  = Some (0,
          put_cout ("WARNING: Unknown name for server data setter request: '"
                    ++ name ++ "'") w).
Proof.
  intros D H K. apply read_cstr_value in H. destruct H as [N E].
  pose proof (read_cstr_strz _ _ _ _ E) as Z.
  apply orb_false_iff in K. destruct K as [K1 K2].
  unfold dataSetter. rewrite N, D. run_with E. rewrite K1, K2. run_with E.
  unfold c_str, LogWarn.
  rewrite (bind_run _ _ _ _ _ (cout_line_exact _ _ _)). run.
  rewrite (strz_append_clean
             "Unknown name for server data setter request: '" (name ++ "'")
             eq_refl (strz_append_clean name "'" Z eq_refl)).
  reflexivity.
Qed.

Lemma dataSetter_battery_exact (pName pData : pointer) (w : World) (v : Z) :
  valueAt (read_cstr pName) w = Some "battery/level" ->
  valueAt (read_uint8 pData) w = Some v ->
  dataSetter pName pData w
  = Some (1,
          if verboseEnough Debug w
          then put_cout ("  DEBUG: Server data: battery level set to "
                         ++ to_string v)
                        (set_serverDataBatteryLevel v w)
          else set_serverDataBatteryLevel v w).
Proof.
  intros H V. apply read_cstr_value in H. destruct H as [N E].
  apply read_uint8_value in V. destruct V as [D R].
  unfold dataSetter. rewrite N, D. run_with E.
  change ("battery/level" =? "battery/level") with true.
  cbv iota. run_with R. run.
  unfold c_str. rewrite bind_run with (a := tt)
    (w1 := if verboseEnough Debug w
           then put_cout ("  DEBUG: Server data: battery level set to "
                          ++ to_string v)
                         (set_serverDataBatteryLevel v w)
           else set_serverDataBatteryLevel v w).
  - reflexivity.
  - rewrite LogDebug_exact.
    change (serverDataBatteryLevel (set_serverDataBatteryLevel v w)) with v.
    rewrite (strz_append_clean "Server data: battery level set to "
               (to_string v) eq_refl (strz_to_string v)).
    reflexivity.
Qed.

Lemma dataSetter_text_exact (pName pData : pointer) (w : World) (s : string) :
  valueAt (read_cstr pName) w = Some "text/string" ->
  valueAt (read_cstr pData) w = Some s ->
  dataSetter pName pData w
  = Some (1,
          if verboseEnough Debug w
          then put_cout ("  DEBUG: Server data: text string set to '"
                         ++ s ++ "'")
                        (set_serverDataTextString s w)
          else set_serverDataTextString s w).
Proof.
  intros H V. apply read_cstr_value in H. destruct H as [N E].
  apply read_cstr_value in V. destruct V as [D R].
  pose proof (read_cstr_strz _ _ _ _ R) as Z.
  unfold dataSetter. rewrite N, D. run_with E.
  change ("text/string" =? "battery/level") with false.
  change ("text/string" =? "text/string") with true.
  cbv iota. run_with R. run.
  unfold c_str. rewrite bind_run with (a := tt)
    (w1 := if verboseEnough Debug w
           then put_cout ("  DEBUG: Server data: text string set to '"
                          ++ s ++ "'")
                         (set_serverDataTextString s w)
           else set_serverDataTextString s w).
  - reflexivity.
  - rewrite LogDebug_exact.
    change (serverDataTextString (set_serverDataTextString s w)) with s.
    rewrite (strz_append_clean "Server data: text string set to '"
               (s ++ "'") eq_refl (strz_append_clean s "'" Z eq_refl)).
    reflexivity.
Qed.

Lemma nonnull_is_null (p : pointer) : p <> nullptr <-> is_null p = false.
Proof.
  destruct p; simpl; split; intros H; try reflexivity; try discriminate;
    contradiction.
Qed.

Lemma read_cstr_at (p : pointer) (w : World) :
  is_null p = false -> exists s, valueAt (read_cstr p) w = Some s /\ strz s = s.
Proof.
  intros N. destruct (read_cstr_run p w N) as [s R].
  exists s. split; [unfold valueAt; rewrite R; reflexivity|].
  apply (read_cstr_strz _ _ _ _ R).
Qed.

Lemma read_uint8_at (p : pointer) (w : World) :
  is_null p = false ->
  exists v, valueAt (read_uint8 p) w = Some v /\ 0 <= v < 256.
Proof.
  intros N. destruct (read_uint8_run p w N) as [v [R B]].
  exists v. split; [unfold valueAt; rewrite R; reflexivity|exact B].
Qed.

(** ** The data bridge: acceptance, answers, log lines *)

(** X3 -- Setter acceptance.  [dataSetter] answers 0 or 1 and nothing else,
    and it answers 1 exactly when both pointers are non-null and the name is
    "battery/level" or "text/string". *)
Theorem dataSetter_accepts_iff (pName pData : pointer) (w : World) :
  exists r w',
    dataSetter pName pData w = Some (r, w') /\
    (r = 0 \/ r = 1) /\
    (r = 1 <->
     pName <> nullptr /\ pData <> nullptr /\
     exists name, valueAt (read_cstr pName) w = Some name /\
                  knownName name = true).
Proof.
  destruct (is_null pName) eqn:N.
  { destruct pName; try discriminate N.
    eexists. eexists. split; [apply dataSetter_null_name_exact|].
    split; [left; reflexivity|].
    split; [discriminate|]. intros [H _]. contradiction. }
  destruct (is_null pData) eqn:D.
  { destruct pData; try discriminate D.
    eexists. eexists. split; [apply (dataSetter_null_data_exact _ _ N)|].
    split; [left; reflexivity|].
    split; [discriminate|]. intros (_ & H & _). contradiction. }
  destruct (read_cstr_at pName w N) as (name & V & _).
  destruct (knownName name) eqn:K.
  - assert (G : pName <> nullptr /\ pData <> nullptr /\
                exists name, valueAt (read_cstr pName) w = Some name /\
                             knownName name = true).
    { split; [apply nonnull_is_null; exact N|].
      split; [apply nonnull_is_null; exact D|eauto]. }
    destruct (knownName_cases name K) as [-> | ->].
    + destruct (read_uint8_at pData w D) as (v & U & _).
      eexists. eexists.
      split; [apply (dataSetter_battery_exact _ _ _ _ V U)|].
      split; [right; reflexivity|]. split; [intros _; exact G|reflexivity].
    + destruct (read_cstr_at pData w D) as (s & U & _).
      eexists. eexists.
      split; [apply (dataSetter_text_exact _ _ _ _ V U)|].
      split; [right; reflexivity|]. split; [intros _; exact G|reflexivity].
  - eexists. eexists.
    split; [apply (dataSetter_unknown_exact _ _ _ _ D V K)|].
    split; [left; reflexivity|].
    split; [discriminate|].
    intros (_ & _ & name' & V' & K'). rewrite V in V'. injection V' as <-.
    rewrite K in K'. discriminate K'.
Qed.

(** X4 -- Getter answers.  [dataGetter] answers the address of
    [serverDataBatteryLevel] exactly for the name "battery/level", the buffer
    of [serverDataTextString] exactly for "text/string", and nil otherwise; it
    never hands out any other pointer.  A non-nil answer changes nothing at
    all; a nil answer costs one line on [std::cout] and nothing else. *)
Theorem dataGetter_answers (pName : pointer) (w : World) :
  exists q w',
    dataGetter pName w = Some (q, w') /\
    (q = nullptr \/ q = addr_serverDataBatteryLevel \/
     q = addr_serverDataTextString) /\
    (q = addr_serverDataBatteryLevel <->
     valueAt (read_cstr pName) w = Some "battery/level") /\
    (q = addr_serverDataTextString <->
     valueAt (read_cstr pName) w = Some "text/string") /\
    (q <> nullptr -> w' = w) /\
    (q = nullptr -> exists line, w' = put_cout line w).
Proof.
  destruct (is_null pName) eqn:N.
  { destruct pName; try discriminate N.
    eexists. eexists. split; [apply dataGetter_null_exact|].
    split; [left; reflexivity|].
    split; [split; discriminate|]. split; [split; discriminate|].
    split; [intros H; contradiction|eauto]. }
  destruct (read_cstr_at pName w N) as (name & V & _).
  destruct (knownName name) eqn:K.
  - destruct (knownName_cases name K) as [-> | ->].
    + exists addr_serverDataBatteryLevel, w.
      split; [apply dataGetter_battery; exact V|].
      split; [auto|]. split; [split; auto|].
      split; [split; [discriminate|rewrite V; discriminate]|].
      split; [reflexivity|discriminate].
    + exists addr_serverDataTextString, w.
      split; [apply dataGetter_text; exact V|].
      split; [auto|].
      split; [split; [discriminate|rewrite V; discriminate]|].
      split; [split; auto|].
      split; [reflexivity|discriminate].
  - eexists. eexists.
    split; [apply (dataGetter_unknown_exact _ _ _ V K)|].
    split; [left; reflexivity|].
    split; [split; [discriminate|]|].
    { intros V'. rewrite V in V'. injection V' as ->. discriminate K. }
    split; [split; [discriminate|]|].
    { intros V'. rewrite V in V'. injection V' as ->. discriminate K. }
    split; [intros H; contradiction|eauto].
Qed.

(** X5 -- Log lines of the setter.  A rejected [dataSetter] call writes
    exactly one line at every log level: an error for a null name, an error
    for null data, a warning that quotes the unknown name.  An accepted call
    writes one line, with the new value, at level Debug and nothing at the
    other levels. *)
Theorem dataSetter_log_lines (pName pData : pointer) (w : World) :
  (pName = nullptr ->
   dataSetter pName pData w
   = Some (0, put_cout "!!ERROR: NULL name sent to server data setter" w)) /\
  (pName <> nullptr -> pData = nullptr ->
   dataSetter pName pData w
   = Some (0, put_cout "!!ERROR: NULL pData sent to server data setter" w)) /\
  (forall name,
     pData <> nullptr ->
     valueAt (read_cstr pName) w = Some name -> knownName name = false ->
     dataSetter pName pData w
     = Some (0, put_cout
                  ("WARNING: Unknown name for server data setter request: '"
                   ++ name ++ "'") w)) /\
  (forall w',
     dataSetter pName pData w = Some (1, w') ->
     (logLevel w <> Debug -> cout w' = cout w) /\
     (logLevel w = Debug ->
      valueAt (read_cstr pName) w = Some "battery/level" ->
      cout w' = (cout w ++
                 [("  DEBUG: Server data: battery level set to "
                   ++ to_string (serverDataBatteryLevel w'))%string])%list) /\
     (logLevel w = Debug ->
      valueAt (read_cstr pName) w = Some "text/string" ->
      cout w' = (cout w ++
                 [("  DEBUG: Server data: text string set to '"
                   ++ serverDataTextString w' ++ "'")%string])%list)).
Proof.
  split; [intros ->; apply dataSetter_null_name_exact|].
  split.
  { intros N ->. apply dataSetter_null_data_exact.
    apply nonnull_is_null. exact N. }
  split.
  { intros name D V K. apply dataSetter_unknown_exact; try assumption.
    apply nonnull_is_null. exact D. }
  intros w' S.
  destruct (is_null pName) eqn:N.
  { destruct pName; try discriminate N.
    rewrite dataSetter_null_name_exact in S. discriminate S. }
  destruct (is_null pData) eqn:D.
  { destruct pData; try discriminate D.
    rewrite (dataSetter_null_data_exact _ _ N) in S. discriminate S. }
  destruct (read_cstr_at pName w N) as (name & V & _).
  destruct (knownName name) eqn:K.
  2: { rewrite (dataSetter_unknown_exact _ _ _ _ D V K) in S. discriminate S. }
  assert (L : verboseEnough Debug w = true <-> logLevel w = Debug).
  { unfold verboseEnough. destruct (logLevel w); simpl; split;
      intros H; try reflexivity; discriminate H. }
  destruct (knownName_cases name K) as [-> | ->].
  - destruct (read_uint8_at pData w D) as (v & U & _).
    rewrite (dataSetter_battery_exact _ _ _ _ V U) in S.
    injection S as <-.
    destruct (verboseEnough Debug w) eqn:B.
    + split; [intros H; elim H; apply L; reflexivity|].
      split; [intros _ _; reflexivity|].
      intros _ V'. rewrite V in V'. discriminate V'.
    + split; [intros _; reflexivity|].
      split; intros H; apply L in H; discriminate H.
  - destruct (read_cstr_at pData w D) as (s & U & _).
    rewrite (dataSetter_text_exact _ _ _ _ V U) in S.
    injection S as <-.
    destruct (verboseEnough Debug w) eqn:B.
    + split; [intros H; elim H; apply L; reflexivity|].
      split; [|intros _ _; reflexivity].
      intros _ V'. rewrite V in V'. discriminate V'.
    + split; [intros _; reflexivity|].
      split; intros H; apply L in H; discriminate H.
Qed.

Lemma dataSetter_log_lines_witness :
  dataSetter (buffer "does/not/exist") (buffer "x") initialWorld
  = Some (0, put_cout
               "WARNING: Unknown name for server data setter request: 'does/not/exist'"
               initialWorld).
Proof.
  destruct (dataSetter_log_lines (buffer "does/not/exist") (buffer "x")
              initialWorld) as (_ & _ & H & _).
  apply (H "does/not/exist").
  - discriminate.
  - reflexivity.
  - reflexivity.
Defined.

Lemma dataSetter_accepts_iff_witness :
  exists r w',
    dataSetter (buffer "text/string") (buffer "Hi") initialWorld
    = Some (r, w') /\ r = 1.
Proof.
  destruct (dataSetter_accepts_iff (buffer "text/string") (buffer "Hi")
              initialWorld) as (r & w' & E & _ & H).
  exists r, w'. split; [exact E|].
  apply H. split; [discriminate|]. split; [discriminate|].
  exists "text/string". split; reflexivity.
Defined.

Lemma dataGetter_answers_witness :
  exists q w',
    dataGetter (buffer "battery/level") initialWorld = Some (q, w') /\
    q = addr_serverDataBatteryLevel.
Proof.
  destruct (dataGetter_answers (buffer "battery/level") initialWorld)
    as (q & w' & E & _ & H & _).
  exists q, w'. split; [exact E|].
  apply H. reflexivity.
Defined.

(** ** The data bridge: how calls compose *)

(** X6 -- Setter calls compose.  With data in buffers of the caller, a set
    of "battery/level" and a set of "text/string" give the same two stored
    values in either order, and of two sets on the same key the second one
    wins. *)
Theorem dataSetter_compose (b b' t t' : string) (w : World) :
  (exists w1 w2 w1' w2',
     dataSetter (buffer "battery/level") (buffer b) w = Some (1, w1) /\
     dataSetter (buffer "text/string") (buffer t) w1 = Some (1, w2) /\
     dataSetter (buffer "text/string") (buffer t) w = Some (1, w1') /\
     dataSetter (buffer "battery/level") (buffer b) w1' = Some (1, w2') /\
     serverDataBatteryLevel w2 = serverDataBatteryLevel w2' /\
     serverDataTextString w2 = serverDataTextString w2' /\
     valueAt (read_uint8 (buffer b)) w = Some (serverDataBatteryLevel w2) /\
     valueAt (read_cstr (buffer t)) w = Some (serverDataTextString w2)) /\
  (exists w1 w2,
     dataSetter (buffer "battery/level") (buffer b) w = Some (1, w1) /\
     dataSetter (buffer "battery/level") (buffer b') w1 = Some (1, w2) /\
     valueAt (read_uint8 (buffer b')) w = Some (serverDataBatteryLevel w2) /\
     serverDataTextString w2 = serverDataTextString w) /\
  (exists w1 w2,
     dataSetter (buffer "text/string") (buffer t) w = Some (1, w1) /\
     dataSetter (buffer "text/string") (buffer t') w1 = Some (1, w2) /\
     valueAt (read_cstr (buffer t')) w = Some (serverDataTextString w2) /\
     serverDataBatteryLevel w2 = serverDataBatteryLevel w).
Proof.
  assert (SB : forall s w0, exists w1,
             dataSetter (buffer "battery/level") (buffer s) w0 = Some (1, w1) /\
             valueAt (read_uint8 (buffer s)) w = Some (serverDataBatteryLevel w1) /\
             serverDataTextString w1 = serverDataTextString w0).
  { intros s w0.
    destruct (read_uint8_at (buffer s) w0 eq_refl) as (v & U & _).
    eexists. split;
      [apply (dataSetter_battery_exact (buffer "battery/level") (buffer s)
                w0 v eq_refl U)|].
    unfold valueAt in U |- *. simpl in U |- *.
    destruct (verboseEnough Debug w0); split;
      (exact U || reflexivity). }
  assert (ST : forall s w0, exists w1,
             dataSetter (buffer "text/string") (buffer s) w0 = Some (1, w1) /\
             valueAt (read_cstr (buffer s)) w = Some (serverDataTextString w1) /\
             serverDataBatteryLevel w1 = serverDataBatteryLevel w0).
  { intros s w0. eexists.
    split; [apply (dataSetter_text_exact (buffer "text/string") (buffer s)
                     w0 (strz s) eq_refl eq_refl)|].
    destruct (verboseEnough Debug w0); split; reflexivity. }
  split; [|split].
  - destruct (SB b w) as (w1 & E1 & B1 & T1).
    destruct (ST t w1) as (w2 & E2 & T2 & B2).
    destruct (ST t w) as (w1' & E1' & T1' & B1').
    destruct (SB b w1') as (w2' & E2' & B2' & T2').
    exists w1, w2, w1', w2'.
    repeat (split; [assumption|]).
    rewrite B2 in *. rewrite T2' in *.
    split; [congruence|]. split; [congruence|]. split; assumption.
  - destruct (SB b w) as (w1 & E1 & B1 & T1).
    destruct (SB b' w1) as (w2 & E2 & B2 & T2).
    exists w1, w2. repeat (split; [assumption|]). congruence.
  - destruct (ST t w) as (w1 & E1 & T1 & B1).
    destruct (ST t' w1) as (w2 & E2 & T2 & B2).
    exists w1, w2. repeat (split; [assumption|]). congruence.
Qed.

(** X7 -- The battery pointer is borrowed storage.  The pointer
    [dataGetter] hands out for "battery/level" is the address of the global
    itself: taken before an accepted set of the level, it reads the new value
    after it. *)
Theorem dataGetter_battery_borrowed (p q : pointer) (w w0 w1 : World) :
  dataGetter (buffer "battery/level") w = Some (q, w0) ->
  dataSetter (buffer "battery/level") p w0 = Some (1, w1) ->
  w0 = w /\
  valueAt (read_uint8 q) w = Some (to_uint8 (serverDataBatteryLevel w)) /\
  valueAt (read_uint8 q) w1 = valueAt (read_uint8 p) w /\
  valueAt (read_uint8 q) w1 = Some (serverDataBatteryLevel w1).
Proof.
  intros G S.
  rewrite (dataGetter_battery (buffer "battery/level") w eq_refl) in G.
  injection G as <- <-.
  assert (D : is_null p = false).
  { destruct p; try reflexivity.
    rewrite (dataSetter_null_data_exact (buffer "battery/level") w eq_refl)
      in S.
    discriminate S. }
  destruct (read_uint8_at p w D) as (v & U & R).
  rewrite (dataSetter_battery_exact (buffer "battery/level") p w v
             eq_refl U) in S.
  assert (L : serverDataBatteryLevel w1 = v).
  { injection S as <-. destruct (verboseEnough Debug w); reflexivity. }
  split; [reflexivity|]. split.
  - unfold valueAt. simpl. unfold uint8_of_char, char_of_uint8.
    rewrite N_ascii_embedding.
    + rewrite Z2N.id; [reflexivity|]. unfold to_uint8.
      apply Z.mod_pos_bound. lia.
    + unfold to_uint8.
      pose proof (Z.mod_pos_bound (serverDataBatteryLevel w) 256). lia.
  - rewrite U. unfold valueAt. simpl. rewrite L, (uint8_char_uint8 v R).
    split; reflexivity.
Qed.

Lemma dataGetter_battery_borrowed_witness :
  valueAt (read_uint8 addr_serverDataBatteryLevel)
          (set_serverDataBatteryLevel 77 initialWorld)
  = valueAt (read_uint8 (buffer "M")) initialWorld.
Proof.
  apply (dataGetter_battery_borrowed (buffer "M") addr_serverDataBatteryLevel
           initialWorld initialWorld
           (set_serverDataBatteryLevel 77 initialWorld)).
  - reflexivity.
  - reflexivity.
Defined.

(** X8 -- Get then set is the identity.  Handing the pointer that
    [dataGetter] answers for a key straight back to [dataSetter] for that key
    is accepted and stores the same two values again. *)
Theorem dataSetter_of_dataGetter (key : string) (w : World) :
  wellFormed w ->
  key = "battery/level" \/ key = "text/string" ->
  exists q w',
    dataGetter (buffer key) w = Some (q, w) /\
    dataSetter (buffer key) q w = Some (1, w') /\
    serverDataBatteryLevel w' = serverDataBatteryLevel w /\
    serverDataTextString w' = serverDataTextString w.
Proof.
  intros [B T] [-> | ->].
  - destruct (read_uint8_at addr_serverDataBatteryLevel w eq_refl)
      as (v & U & _).
    exists addr_serverDataBatteryLevel. eexists.
    split; [apply dataGetter_battery; reflexivity|].
    split; [apply (dataSetter_battery_exact (buffer "battery/level")
                     addr_serverDataBatteryLevel w v eq_refl U)|].
    unfold valueAt in U. simpl in U. rewrite (uint8_char_uint8 _ B) in U.
    injection U as <-.
    destruct (verboseEnough Debug w); split; reflexivity.
  - exists addr_serverDataTextString. eexists.
    split; [apply dataGetter_text; reflexivity|].
    split; [apply (dataSetter_text_exact (buffer "text/string")
                     addr_serverDataTextString w
                     (strz (serverDataTextString w)) eq_refl eq_refl)|].
    destruct (verboseEnough Debug w); split; simpl; try reflexivity;
      exact T.
Qed.

Lemma dataSetter_of_dataGetter_witness :
  exists q w',
    dataGetter (buffer "text/string") initialWorld = Some (q, initialWorld) /\
    dataSetter (buffer "text/string") q initialWorld = Some (1, w') /\
    serverDataBatteryLevel w' = serverDataBatteryLevel initialWorld /\
    serverDataTextString w' = serverDataTextString initialWorld.
Proof.
  apply (dataSetter_of_dataGetter "text/string" initialWorld).
  - split; [simpl; lia|reflexivity].
  - right. reflexivity.
Defined.

(** ** The tree: every path a central can name *)

Lemma findCharacteristic_some (tree : list GattService) (path : string)
      (c : GattCharacteristic) :
  findCharacteristic tree path = Some c ->
  exists s, In s tree /\ In c (characteristics s) /\
            characteristicPath s c = path.
Proof.
  induction tree as [|s rest IH]; [discriminate|].
  change (findCharacteristic (s :: rest) path)
    with (match find (fun c => characteristicPath s c =? path)
                     (characteristics s) with
          | Some c => Some c
          | None => findCharacteristic rest path
          end).
  destruct (find _ (characteristics s)) as [c'|] eqn:F.
  - intros H. injection H as ->.
    apply find_some in F. destruct F as [I E].
    apply String.eqb_eq in E.
    exists s. split; [left; reflexivity|]. split; assumption.
  - intros H. destruct (IH H) as (s' & I & R).
    exists s'. split; [right; exact I|exact R].
Qed.

Lemma findDescriptorIn_some (s : GattService) (cs : list GattCharacteristic)
      (path : string) (d : GattDescriptor) :
  findDescriptorIn s cs path = Some d ->
  exists c, In c cs /\ In d (descriptors c) /\ descriptorPath s c d = path.
Proof.
  induction cs as [|c rest IH]; [discriminate|].
  change (findDescriptorIn s (c :: rest) path)
    with (match find (fun d => descriptorPath s c d =? path)
                     (descriptors c) with
          | Some d => Some d
          | None => findDescriptorIn s rest path
          end).
  destruct (find _ (descriptors c)) as [d'|] eqn:F.
  - intros H. injection H as ->.
    apply find_some in F. destruct F as [I E].
    apply String.eqb_eq in E.
    exists c. split; [left; reflexivity|]. split; assumption.
  - intros H. destruct (IH H) as (c' & I & R).
    exists c'. split; [right; exact I|exact R].
Qed.

Lemma findDescriptor_some (tree : list GattService) (path : string)
      (d : GattDescriptor) :
  findDescriptor tree path = Some d ->
  exists s c, In s tree /\ In c (characteristics s) /\
              In d (descriptors c) /\ descriptorPath s c d = path.
Proof.
  induction tree as [|s rest IH]; [discriminate|].
  change (findDescriptor (s :: rest) path)
    with (match findDescriptorIn s (characteristics s) path with
          | Some d => Some d
          | None => findDescriptor rest path
          end).
  destruct (findDescriptorIn s (characteristics s) path) as [d'|] eqn:F.
  - intros H. injection H as ->.
    destruct (findDescriptorIn_some _ _ _ _ F) as (c & I & R).
    exists s, c. split; [left; reflexivity|]. split; [exact I|exact R].
  - intros H. destruct (IH H) as (s' & c & I & R).
    exists s', c. split; [right; exact I|exact R].
Qed.

(** The characteristics of the tree, one by one. *)
Lemma declared_characteristics (s : GattService) (c : GattCharacteristic) :
  In s serverConfigurator -> In c (characteristics s) ->
  (c = device_mfgr_name /\ characteristicPath s c = mfgrNamePath) \/
  (c = device_model_num /\
   characteristicPath s c = "/com/gobbledegook/device/model_num") \/
  (c = battery_level /\ characteristicPath s c = batteryLevelPath) \/
  (c = time_current /\
   characteristicPath s c = "/com/gobbledegook/time/current") \/
  (c = time_local /\
   characteristicPath s c = "/com/gobbledegook/time/local") \/
  (c = text_string /\ characteristicPath s c = textStringPath) \/
  (c = ascii_time_string /\
   characteristicPath s c = "/com/gobbledegook/ascii_time/string") \/
  (c = cpu_count /\
   characteristicPath s c = "/com/gobbledegook/cpu/count") \/
  (c = cpu_model /\
   characteristicPath s c = "/com/gobbledegook/cpu/model").
Proof.
  intros I J. unfold serverConfigurator in I.
  destruct I as [<-|[<-|[<-|[<-|[<-|[<-|[]]]]]]].
  - destruct J as [<-|[<-|[]]]; [left|right; left]; split; reflexivity.
  - destruct J as [<-|[]]. do 2 right. left. split; reflexivity.
  - destruct J as [<-|[<-|[]]]; [do 3 right; left|do 4 right; left];
      split; reflexivity.
  - destruct J as [<-|[]]. do 5 right. left. split; reflexivity.
  - destruct J as [<-|[]]. do 6 right. left. split; reflexivity.
  - destruct J as [<-|[<-|[]]]; [do 7 right; left|do 8 right];
      split; reflexivity.
Qed.

Lemma declared_descriptors (s : GattService) (c : GattCharacteristic)
      (d : GattDescriptor) :
  In s serverConfigurator -> In c (characteristics s) ->
  In d (descriptors c) ->
  exists text, d = userDescription text.
Proof.
  intros I J K. unfold serverConfigurator in I.
  destruct I as [<-|[<-|[<-|[<-|[<-|[<-|[]]]]]]].
  - destruct J as [<-|[<-|[]]]; destruct K.
  - destruct J as [<-|[]]. destruct K.
  - destruct J as [<-|[<-|[]]]; destruct K.
  - destruct J as [<-|[]]. destruct K as [<-|[]]. eexists. reflexivity.
  - destruct J as [<-|[]]. destruct K as [<-|[]]. eexists. reflexivity.
  - destruct J as [<-|[<-|[]]]; destruct K as [<-|[]]; eexists; reflexivity.
Qed.

Lemma ReadValue_battery_level (options : Variant) (w : World) :
  ReadValue batteryLevelPath options w
  = Some (tt,
          put_bus (MethodReturn
                     (VTuple [VByteArray
                                [levelByte (serverDataBatteryLevel w)]])) w).
Proof.
  unfold ReadValue, callMethod. rewrite find_battery_level.
  change ("ReadValue" =? "ReadValue") with true.
  unfold battery_level, onReadValue.
  run_with (getDataValue_uint8_battery 0 w).
  unfold methodReturnValue_uint8, gvariantFromByteArray_uint8, levelByte.
  rewrite char_uint8_char. reflexivity.
Qed.

Lemma callMethod_characteristic (path methodName : string)
      (pParameters : Variant) (c : GattCharacteristic) (w : World) :
  findCharacteristic serverConfigurator path = Some c ->
  callMethod serverConfigurator path methodName pParameters w
  = match (if methodName =? "ReadValue" then onReadValue c
           else if methodName =? "WriteValue" then onWriteValue c
           else None) with
    | Some f => f (selfOf c path) pParameters w
    | None => Some (tt, put_bus (MethodError
                                   "org.freedesktop.DBus.Error.UnknownMethod") w)
    end.
Proof.
  intros F. unfold callMethod. rewrite F.
  destruct (if methodName =? "ReadValue" then onReadValue c
            else if methodName =? "WriteValue" then onWriteValue c
            else None); reflexivity.
Qed.

Lemma callMethod_descriptor (path methodName : string)
      (pParameters : Variant) (w : World) :
  findCharacteristic serverConfigurator path = None ->
  exists m,
    callMethod serverConfigurator path methodName pParameters w
    = Some (tt, put_bus m w) /\
    ((methodName =? "ReadValue") = false -> exists name, m = MethodError name).
Proof.
  intros F. unfold callMethod. rewrite F. unfold callDescriptorMethod.
  destruct (findDescriptor serverConfigurator path) as [d|] eqn:D.
  - destruct (findDescriptor_some _ _ _ D) as (s & c & I & J & K & _).
    destruct (declared_descriptors s c d I J K) as (text & ->).
    destruct (methodName =? "ReadValue").
    + eexists. split; [reflexivity|]. discriminate.
    + eexists. split; [reflexivity|]. eauto.
  - eexists. split; [reflexivity|]. eauto.
Qed.

Lemma ReadValue_any (path : string) (options : Variant) (w : World) :
  exists m, ReadValue path options w = Some (tt, put_bus m w).
Proof.
  unfold ReadValue.
  destruct (findCharacteristic serverConfigurator path) as [c|] eqn:F.
  - rewrite (callMethod_characteristic _ _ _ _ _ F).
    change ("ReadValue" =? "ReadValue") with true. cbv iota.
    destruct (findCharacteristic_some _ _ _ F) as (s & I & J & P).
    destruct (declared_characteristics s c I J)
      as [[-> _]|[[-> _]|[[-> _]|[[-> _]|[[-> _]|[[-> _]|[[-> _]|[[-> _]|[-> _]]]]]]]]];
      eexists; reflexivity.
  - destruct (callMethod_descriptor path "ReadValue" (VTuple [options]) w F)
      as (m & E & _).
    eauto.
Qed.

Lemma untilNul_strz (bytes : list byte) :
  list_byte_of_string (strz (string_of_list_byte bytes)) = untilNul bytes.
Proof.
  induction bytes as [|b rest IH]; [reflexivity|].
  change (string_of_list_byte (b :: rest))
    with (String (ascii_of_byte b) (string_of_list_byte rest)).
  simpl strz. simpl untilNul.
  destruct (Byte.eqb b x00) eqn:E.
  - apply Byte.byte_dec_bl in E. subst b. reflexivity.
  - rewrite (byte_of_ascii_zero b E).
    change (list_byte_of_string (String (ascii_of_byte b)
                                   (strz (string_of_list_byte rest))))
      with (byte_of_ascii (ascii_of_byte b)
            :: list_byte_of_string (strz (string_of_list_byte rest))).
    rewrite byte_of_ascii_of_byte, IH. reflexivity.
Qed.

Lemma untilNul_noNul (bytes : list byte) :
  noNul bytes = true -> untilNul bytes = bytes.
Proof.
  induction bytes as [|b rest IH]; [reflexivity|].
  simpl. intros H. apply andb_true_iff in H. destruct H as [B R].
  apply negb_true_iff in B. rewrite B, (IH R). reflexivity.
Qed.

Lemma untilNul_prefix (bytes : list byte) :
  noNul (untilNul bytes) = true /\
  exists rest, bytes = (untilNul bytes ++ rest)%list /\
               (rest = [] \/ exists rest', rest = x00 :: rest').
Proof.
  induction bytes as [|b bs [N (rest & E & R)]].
  - split; [reflexivity|]. exists []. split; [reflexivity|left; reflexivity].
  - simpl. destruct (Byte.eqb b x00) eqn:B.
    + split; [reflexivity|]. exists (b :: bs).
      split; [reflexivity|]. right. exists bs.
      apply Byte.byte_dec_bl in B. subst b. reflexivity.
    + split; [simpl; rewrite B, N; reflexivity|].
      exists rest. split; [simpl; rewrite <- E; reflexivity|exact R].
Qed.

(** ** The handlers: reads, writes and notifications *)

(** X9 -- Reads are read-only.  A ReadValue on any path whatsoever, declared
    or not, puts exactly one message on the bus and changes nothing else:
    not the served values, not the notify queue, not even [std::cout]. *)
Theorem ReadValue_read_only (path : string) (options : Variant) (w : World) :
  exists m w',
    ReadValue path options w = Some (tt, w') /\
    bus w' = (bus w ++ [m])%list /\
    serverDataBatteryLevel w' = serverDataBatteryLevel w /\
    serverDataTextString w' = serverDataTextString w /\
    logLevel w' = logLevel w /\
    cout w' = cout w /\
    calls w' = calls w /\
    updateQueue w' = updateQueue w /\
    host w' = host w.
Proof.
  destruct (ReadValue_any path options w) as [m E].
  exists m, (put_bus m w). split; [exact E|]. repeat split.
Qed.

Lemma put_bus_inj (m m' : BusMessage) (w : World) :
  put_bus m w = put_bus m' w -> m = m'.
Proof.
  intros H. apply (f_equal bus) in H. simpl in H.
  apply app_inv_head in H. injection H as ->. reflexivity.
Qed.

(** X10 -- Every declared characteristic answers a read.  For each of the
    nine characteristics of the tree, a ReadValue on its path is answered by a
    method return that carries one value, never by an error. *)
Theorem declared_characteristics_reply (path : string) (options : Variant)
        (w : World) :
  In path (characteristicPaths serverConfigurator) ->
  List.length (characteristicPaths serverConfigurator) = 9%nat /\
  exists v,
    ReadValue path options w = Some (tt, put_bus (MethodReturn (VTuple [v])) w).
Proof.
  intros I. split; [reflexivity|].
  unfold characteristicPaths, serverConfigurator in I.
  unfold ReadValue.
  destruct I as [<-|[<-|[<-|[<-|[<-|[<-|[<-|[<-|[<-|[]]]]]]]]]];
    (erewrite callMethod_characteristic by reflexivity);
    eexists; reflexivity.
Qed.

Lemma declared_characteristics_reply_witness :
  exists v,
    ReadValue "/com/gobbledegook/cpu/count" VNull initialWorld
    = Some (tt, put_bus (MethodReturn (VTuple [v])) initialWorld).
Proof.
  apply (declared_characteristics_reply "/com/gobbledegook/cpu/count").
  do 7 right. left. reflexivity.
Defined.

Lemma WriteValue_other (path : string) (bytes : list byte)
      (options : Variant) (w : World) :
  path <> textStringPath ->
  exists name,
    WriteValue path bytes options w = Some (tt, put_bus (MethodError name) w).
Proof.
  intros N. unfold WriteValue.
  destruct (findCharacteristic serverConfigurator path) as [c|] eqn:F.
  - rewrite (callMethod_characteristic _ _ _ _ _ F).
    change ("WriteValue" =? "ReadValue") with false.
    change ("WriteValue" =? "WriteValue") with true. cbv iota.
    destruct (findCharacteristic_some _ _ _ F) as (s & I & J & P).
    destruct (declared_characteristics s c I J)
      as [[-> _]|[[-> _]|[[-> _]|[[-> _]|[[-> _]|[[-> Q]|[[-> _]|[[-> _]|[-> _]]]]]]]]];
      try (eexists; reflexivity).
    rewrite P in Q. contradiction.
  - destruct (callMethod_descriptor path "WriteValue"
                (VTuple [VByteArray bytes; options]) w F)
      as (m & E & H).
    destruct (H eq_refl) as [name ->].
    exists name. exact E.
Qed.

(** X11 -- Only the text string is writable.  A WriteValue on any path other
    than that of the text characteristic is answered with a D-Bus error and
    changes nothing but the bus: no central can change the battery level or
    reach the text through another object. *)
Theorem only_text_is_writable (path : string) (bytes : list byte)
        (options : Variant) (w : World) :
  path <> textStringPath ->
  exists name w',
    WriteValue path bytes options w = Some (tt, w') /\
    bus w' = (bus w ++ [MethodError name])%list /\
    serverDataBatteryLevel w' = serverDataBatteryLevel w /\
    serverDataTextString w' = serverDataTextString w /\
    cout w' = cout w /\
    updateQueue w' = updateQueue w.
Proof.
  intros N.
  destruct (WriteValue_other path bytes options w N) as [name E].
  exists name. eexists. split; [exact E|]. repeat split.
Qed.

Lemma only_text_is_writable_witness :
  exists name w',
    WriteValue batteryLevelPath [x64] VNull initialWorld = Some (tt, w') /\
    bus w' = (bus initialWorld ++ [MethodError name])%list /\
    serverDataBatteryLevel w' = serverDataBatteryLevel initialWorld /\
    serverDataTextString w' = serverDataTextString initialWorld /\
    cout w' = cout initialWorld /\
    updateQueue w' = updateQueue initialWorld.
Proof.
  apply (only_text_is_writable batteryLevelPath [x64] VNull initialWorld).
  discriminate.
Defined.

(** X12 -- Text round trip for every write.  Whatever bytes a central
    writes to the text characteristic, the next read is answered with the
    bytes before the first zero byte of what was written, hence with all of
    them when none is zero; subscribers were notified of the same bytes, and
    of two writes the later one is the one that is read back. *)
Theorem text_roundtrip_general (first bytes : list byte)
        (o1 o2 o3 : Variant) (w : World) :
  exists w0 w1 w2,
    WriteValue textStringPath first o1 w = Some (tt, w0) /\
    WriteValue textStringPath bytes o2 w0 = Some (tt, w1) /\
    ReadValue textStringPath o3 w1 = Some (tt, w2) /\
    bus w1 = (bus w0 ++
              [PropertiesChanged textStringPath (VByteArray (untilNul bytes));
               MethodReturn VNull])%list /\
    bus w2 = (bus w1 ++
              [MethodReturn (VTuple [VByteArray (untilNul bytes)])])%list /\
    (noNul bytes = true -> untilNul bytes = bytes) /\
    noNul (untilNul bytes) = true /\
    exists rest, bytes = (untilNul bytes ++ rest)%list /\
                 (rest = [] \/ exists rest', rest = x00 :: rest').
Proof.
  destruct (WriteValue_text_string first o1 w) as (w0 & E0 & _).
  destruct (WriteValue_text_string bytes o2 w0) as (w1 & E1 & T1 & B1 & _).
  exists w0, w1. eexists.
  split; [exact E0|]. split; [exact E1|].
  split; [apply ReadValue_text_string|].
  split; [rewrite B1, untilNul_strz; reflexivity|].
  split.
  { simpl. rewrite T1, strz_idempotent, untilNul_strz. reflexivity. }
  split; [apply untilNul_noNul|].
  apply untilNul_prefix.
Qed.

Lemma text_roundtrip_general_witness :
  untilNul [x48; x69] = [x48; x69].
Proof.
  destruct (text_roundtrip_general [] [x48; x69] VNull VNull VNull initialWorld)
    as (_ & _ & _ & _ & _ & _ & _ & _ & H & _).
  apply H. reflexivity.
Defined.

(** X13 -- Subscribers and readers see the same value.  For the battery
    level and for the text string, the value that the update handler puts in
    PropertiesChanged is the value a ReadValue in the same state is answered
    with; neither changes the served values. *)
Theorem notify_matches_read (options : Variant) (w : World) :
  (exists v,
     callOnUpdatedValue_of battery_level batteryLevelPath w
     = Some (true, put_bus (PropertiesChanged batteryLevelPath v) w) /\
     ReadValue batteryLevelPath options w
     = Some (tt, put_bus (MethodReturn (VTuple [v])) w) /\
     v = VByteArray [levelByte (serverDataBatteryLevel w)]) /\
  (exists v,
     callOnUpdatedValue_of text_string textStringPath w
     = Some (true, put_bus (PropertiesChanged textStringPath v) w) /\
     ReadValue textStringPath options w
     = Some (tt, put_bus (MethodReturn (VTuple [v])) w) /\
     v = VByteArray (list_byte_of_string (strz (serverDataTextString w)))).
Proof.
  split; eexists.
  - split; [apply battery_level_onUpdatedValue|].
    split; [apply ReadValue_battery_level|reflexivity].
  - split; [apply text_string_onUpdatedValue|].
    split; [apply ReadValue_text_string|reflexivity].
Qed.

(** X14 -- The battery read follows the bridge.  After an accepted
    [dataSetter] call on "battery/level", a ReadValue on the battery
    characteristic is answered with the one byte that was at the data
    pointer. *)
Theorem battery_read_after_set (p : pointer) (options : Variant)
        (w w1 : World) :
  dataSetter (buffer "battery/level") p w = Some (1, w1) ->
  exists v,
    valueAt (read_uint8 p) w = Some v /\
    0 <= v < 256 /\
    ReadValue batteryLevelPath options w1
    = Some (tt, put_bus (MethodReturn (VTuple [VByteArray [levelByte v]])) w1).
Proof.
  intros S.
  assert (D : is_null p = false).
  { destruct p; try reflexivity.
    rewrite (dataSetter_null_data_exact (buffer "battery/level") w eq_refl)
      in S.
    discriminate S. }
  destruct (read_uint8_at p w D) as (v & U & R).
  rewrite (dataSetter_battery_exact (buffer "battery/level") p w v
             eq_refl U) in S.
  assert (L : serverDataBatteryLevel w1 = v).
  { injection S as <-. destruct (verboseEnough Debug w); reflexivity. }
  exists v. split; [exact U|]. split; [exact R|].
  rewrite ReadValue_battery_level, L. reflexivity.
Qed.

Lemma battery_read_after_set_witness :
  exists v,
    valueAt (read_uint8 (buffer "M")) initialWorld = Some v /\
    0 <= v < 256 /\
    ReadValue batteryLevelPath VNull
              (set_serverDataBatteryLevel 77 initialWorld)
    = Some (tt,
            put_bus (MethodReturn (VTuple [VByteArray [levelByte v]]))
                    (set_serverDataBatteryLevel 77 initialWorld)).
Proof.
  apply (battery_read_after_set (buffer "M") VNull initialWorld).
  reflexivity.
Defined.

(** ** [main]: the whole run *)

Lemma parseArguments_flags_exact (args : list string) (w : World) :
  forallb isFlag args = true ->
  parseArguments args w
  = Some (true, set_logLevel (last (map levelOfFlag args) (logLevel w)) w).
Proof.
  revert w. induction args as [|arg rest IH]; intros w H.
  - destruct w. reflexivity.
  - simpl in H. apply andb_true_iff in H. destruct H as [F R].
    change (map levelOfFlag (arg :: rest))
      with (levelOfFlag arg :: map levelOfFlag rest).
    rewrite last_cons.
    destruct (isFlag_cases arg F) as [-> | [-> | ->]].
    + change (parseArguments ("-q" :: rest) w)
        with (parseArguments rest (set_logLevel ErrorsOnly w)).
      rewrite (IH _ R). reflexivity.
    + change (parseArguments ("-v" :: rest) w)
        with (parseArguments rest (set_logLevel Verbose w)).
      rewrite (IH _ R). reflexivity.
    + change (parseArguments ("-d" :: rest) w)
        with (parseArguments rest (set_logLevel Debug w)).
      rewrite (IH _ R). reflexivity.
Qed.

Lemma runningPrefix_cons (state : GGKServerRunState)
      (rest : list GGKServerRunState) :
  (isRunning state = true ->
   runningPrefix (state :: rest) = S (runningPrefix rest) /\
   leavesLoop (state :: rest) = leavesLoop rest /\
   loopCalls (state :: rest) = (turnCalls ++ loopCalls rest)%list) /\
  (isRunning state = false ->
   runningPrefix (state :: rest) = O /\
   leavesLoop (state :: rest) = true /\
   loopCalls (state :: rest) = [call_ggkGetServerRunState]).
Proof.
  unfold loopCalls, leavesLoop. simpl.
  split; intros R; rewrite R; simpl; repeat split.
Qed.

Lemma batteryLoop_trace (states : list GGKServerRunState) (w : World) :
  0 <= serverDataBatteryLevel w < 256 ->
  exists w',
    batteryLoop states w = Some (leavesLoop states, w') /\
    serverDataBatteryLevel w'
    = Z.max (serverDataBatteryLevel w - Z.of_nat (runningPrefix states)) 0 /\
    calls w' = (calls w ++ loopCalls states)%list /\
    updateQueue w'
    = (updateQueue w ++ repeat batteryLevelPath (runningPrefix states))%list /\
    serverDataTextString w' = serverDataTextString w /\
    logLevel w' = logLevel w /\
    cout w' = cout w /\
    bus w' = bus w /\
    host w' = host w.
Proof.
  revert w. induction states as [|state rest IH]; intros w B.
  - exists w. unfold loopCalls. simpl. rewrite !app_nil_r.
    repeat split. lia.
  - rewrite batteryLoop_cons.
    destruct (runningPrefix_cons state rest) as [RT RF].
    destruct (isRunning state) eqn:R.
    + destruct (RT eq_refl) as (P & L & C). rewrite P, L, C.
      run_with (batteryTick_run (put_call call_ggkGetServerRunState w)).
      match goal with
      | |- context [batteryLoop rest ?w0] =>
          destruct (IH w0) as (w' & E & HB & HC & HQ & HT & HL & HO & HU & HH)
      end.
      { simpl. destruct (batteryTick_level _ B) as [U V]. rewrite U. exact V. }
      exists w'. split; [exact E|].
      simpl in HB, HC, HQ, HT, HL, HO, HU, HH.
      destruct (batteryTick_level _ B) as [U _]. rewrite U in HB.
      split; [rewrite HB; lia|].
      split; [rewrite HC; unfold turnCalls; rewrite <- !app_assoc; reflexivity|].
      split; [rewrite HQ; rewrite <- app_assoc; reflexivity|].
      repeat split; assumption.
    + destruct (RF eq_refl) as (P & L & C). rewrite P, L, C.
      eexists. split; [reflexivity|]. simpl. rewrite app_nil_r.
      repeat split. lia.
Qed.

Lemma startup_calls (w : World) :
  calls (fold_left (fun w0 c => put_call c w0) startupCalls w)
  = (calls w ++ startupCalls)%list.
Proof. simpl. rewrite <- !app_assoc. reflexivity. Qed.

Lemma main_after_startup (argv : list string) (facade : Facade)
      (w w0 : World) :
  parseArguments (tl argv) w = Some (true, w0) ->
  main argv facade w
  = if (ggkStart_result facade =? 0)%Z
    then Some (Some (-1),
               fold_left (fun w0 c => put_call c w0) startupCalls w0)
    else match batteryLoop (ggkGetServerRunState_results facade)
                 (fold_left (fun w0 c => put_call c w0) startupCalls w0) with
         | None => None
         | Some (false, w2) => Some (None, w2)
         | Some (true, w2) =>
             if (ggkWait_result facade =? 0)%Z
             then Some (Some (-1), put_call call_ggkWait w2)
             else Some (Some (if GGKServerHealth_eqb
                                   (ggkGetServerHealth_result facade) EOk
                              then 0 else 1),
                        put_call call_ggkGetServerHealth
                          (put_call call_ggkWait w2))
         end.
Proof.
  intros P. unfold main. run_with P.
  change (negb true) with false. cbv iota.
  unfold call. run. run_with (registerLoggers_run
    (put_call (call_signal SIGTERM) (put_call (call_signal SIGINT) w0))).
  run. unfold startupCalls. simpl fold_left.
  destruct (ggkStart_result facade =? 0)%Z; [reflexivity|].
  unfold bind at 1.
  destruct (batteryLoop _ _) as [[[|] w2]|]; [|reflexivity|reflexivity].
  change (negb true) with false. cbv iota. run.
  destruct (ggkWait_result facade =? 0)%Z; reflexivity.
Qed.

(** X15 -- A failed start ends the run at once.  With a well-formed command
    line, when [ggkStart] fails [main] returns -1 having made the two
    [signal] calls, the eight logger registrations and the [ggkStart] call,
    in this order, and nothing after: no poll of the run state, no sleep, no
    notification, no [ggkWait].  The served values and [std::cout] are as
    before. *)
Theorem main_start_failure (argv : list string) (facade : Facade) (w : World) :
  forallb isFlag (tl argv) = true ->
  ggkStart_result facade = 0 ->
  exists w',
    main argv facade w = Some (Some (-1), w') /\
    calls w' = (calls w ++ startupCalls)%list /\
    serverDataBatteryLevel w' = serverDataBatteryLevel w /\
    serverDataTextString w' = serverDataTextString w /\
    updateQueue w' = updateQueue w /\
    cout w' = cout w /\
    bus w' = bus w.
Proof.
  intros F S.
  rewrite (main_after_startup argv facade w _
             (parseArguments_flags_exact (tl argv) w F)).
  rewrite S. change (0 =? 0)%Z with true. cbv iota.
  eexists. split; [reflexivity|].
  split; [rewrite startup_calls; reflexivity|]. repeat split.
Qed.

Lemma main_start_failure_witness :
  exists w',
    main ["standalone"; "-d"]
         {| ggkStart_result := 0;
            ggkGetServerRunState_results := [ERunning];
            ggkWait_result := 1;
            ggkGetServerHealth_result := EFailedInit |} initialWorld
    = Some (Some (-1), w') /\
    calls w' = (calls initialWorld ++ startupCalls)%list /\
    serverDataBatteryLevel w' = serverDataBatteryLevel initialWorld /\
    serverDataTextString w' = serverDataTextString initialWorld /\
    updateQueue w' = updateQueue initialWorld /\
    cout w' = cout initialWorld /\
    bus w' = bus initialWorld.
Proof.
  apply (main_start_failure ["standalone"; "-d"]
           {| ggkStart_result := 0;
              ggkGetServerRunState_results := [ERunning];
              ggkWait_result := 1;
              ggkGetServerHealth_result := EFailedInit |} initialWorld);
    reflexivity.
Defined.

(** X16 -- The run of [main], call by call.  With a well-formed command
    line and a successful start, [main] makes its outside calls in this
    order: the start-up calls; for each report "running" one poll, one sleep
    of 15 seconds and one notification, until a report says otherwise or the
    reports end; after the poll that ends the loop one [ggkWait]; and
    [ggkGetServerHealth] only when that wait succeeded.  Reports after the
    one that ends the loop are never asked for.  The level has gone down by
    the number of turns (not below 0), one token per turn is queued, and
    [main] has written nothing to [std::cout], to the text or to the bus. *)
Theorem main_calls_in_order (argv : list string) (facade : Facade) (w : World) :
  forallb isFlag (tl argv) = true ->
  0 <= serverDataBatteryLevel w < 256 ->
  ggkStart_result facade <> 0 ->
  exists r w',
    main argv facade w = Some (r, w') /\
    calls w'
    = (calls w ++ startupCalls
       ++ loopCalls (ggkGetServerRunState_results facade)
       ++ (if leavesLoop (ggkGetServerRunState_results facade)
           then call_ggkWait
                :: (if (ggkWait_result facade =? 0)%Z then []
                    else [call_ggkGetServerHealth])
           else []))%list /\
    (r = None <-> leavesLoop (ggkGetServerRunState_results facade) = false) /\
    serverDataBatteryLevel w'
    = Z.max (serverDataBatteryLevel w
             - Z.of_nat (runningPrefix (ggkGetServerRunState_results facade)))
            0 /\
    updateQueue w'
    = (updateQueue w
       ++ repeat batteryLevelPath
                 (runningPrefix (ggkGetServerRunState_results facade)))%list /\
    serverDataTextString w' = serverDataTextString w /\
    cout w' = cout w /\
    bus w' = bus w.
Proof.
  intros F B S.
  rewrite (main_after_startup argv facade w _
             (parseArguments_flags_exact (tl argv) w F)).
  apply Z.eqb_neq in S. rewrite S.
  match goal with
  | |- context [batteryLoop ?l ?w0] =>
      destruct (batteryLoop_trace l w0)
        as (w2 & E & HB & HC & HQ & HT & HL & HO & HU & HH)
  end.
  { exact B. }
  rewrite E. rewrite startup_calls in HC.
  change (calls (set_logLevel _ w)) with (calls w) in HC.
  change (serverDataBatteryLevel (fold_left _ _ _))
    with (serverDataBatteryLevel w) in HB.
  change (updateQueue (fold_left _ _ _)) with (updateQueue w) in HQ.
  change (serverDataTextString (fold_left _ _ _))
    with (serverDataTextString w) in HT.
  change (cout (fold_left _ _ _)) with (cout w) in HO.
  change (bus (fold_left _ _ _)) with (bus w) in HU.
  destruct (leavesLoop (ggkGetServerRunState_results facade)).
  - destruct (ggkWait_result facade =? 0)%Z;
      eexists; eexists; (split; [reflexivity|]); simpl;
      rewrite HC, <- !app_assoc;
      (split; [reflexivity|]);
      (split; [split; discriminate|]);
      repeat split; assumption.
  - eexists. eexists. split; [reflexivity|].
    cbv iota. rewrite HC, app_nil_r, <- !app_assoc.
    split; [reflexivity|]. split; [split; reflexivity|].
    repeat split; assumption.
Qed.

Lemma main_calls_in_order_witness :
  exists r w',
    main ["standalone"]
         {| ggkStart_result := 1;
            ggkGetServerRunState_results := [ERunning; EStopping; ERunning];
            ggkWait_result := 1;
            ggkGetServerHealth_result := EOk |} initialWorld
    = Some (r, w') /\
    calls w'
    = (startupCalls ++ turnCalls
       ++ [call_ggkGetServerRunState; call_ggkWait; call_ggkGetServerHealth])%list /\
    serverDataBatteryLevel w' = 77.
Proof.
  destruct (main_calls_in_order ["standalone"]
              {| ggkStart_result := 1;
                 ggkGetServerRunState_results := [ERunning; EStopping; ERunning];
                 ggkWait_result := 1;
                 ggkGetServerHealth_result := EOk |} initialWorld)
    as (r & w' & E & C & _ & B & _).
  - reflexivity.
  - simpl. lia.
  - simpl. discriminate.
  - exists r, w'. split; [exact E|]. split; [exact C|exact B].
Defined.

Lemma parseArguments_unknown_head (bad : string) (rest : list string)
      (w : World) :
  isFlag bad = false ->
  parseArguments (bad :: rest) w
  = Some (false, fold_left (fun w0 l => put_cout l w0) (fatalLines bad) w).
Proof.
  intros F. unfold isFlag in F.
  apply orb_false_iff in F. destruct F as [F F3].
  apply orb_false_iff in F. destruct F as [F1 F2].
  simpl parseArguments. rewrite F1, F2, F3.
  unfold c_str, LogFatal.
  rewrite (bind_run _ _ _ _ _ (cout_line_exact _ _ _)).
  rewrite (bind_run _ _ _ _ _ (cout_line_exact _ _ _)).
  rewrite (bind_run _ _ _ _ _ (cout_line_exact _ _ _)).
  reflexivity.
Qed.

Lemma parseArguments_first_unknown_run (pre : list string) (bad : string)
      (rest : list string) (w : World) :
  forallb isFlag pre = true -> isFlag bad = false ->
  parseArguments (pre ++ bad :: rest)%list w
  = Some (false,
          fold_left (fun w0 l => put_cout l w0) (fatalLines bad)
            (set_logLevel (last (map levelOfFlag pre) (logLevel w)) w)).
Proof.
  revert w. induction pre as [|arg pre IH]; intros w P F.
  - change (([] ++ bad :: rest)%list) with (bad :: rest).
    rewrite (parseArguments_unknown_head bad rest w F).
    destruct w. reflexivity.
  - simpl in P. apply andb_true_iff in P. destruct P as [A P].
    change (map levelOfFlag (arg :: pre))
      with (levelOfFlag arg :: map levelOfFlag pre).
    rewrite last_cons.
    destruct (isFlag_cases arg A) as [-> | [-> | ->]].
    + change (parseArguments (("-q" :: pre) ++ bad :: rest)%list w)
        with (parseArguments (pre ++ bad :: rest)%list
                (set_logLevel ErrorsOnly w)).
      rewrite (IH _ P F). reflexivity.
    + change (parseArguments (("-v" :: pre) ++ bad :: rest)%list w)
        with (parseArguments (pre ++ bad :: rest)%list
                (set_logLevel Verbose w)).
      rewrite (IH _ P F). reflexivity.
    + change (parseArguments (("-d" :: pre) ++ bad :: rest)%list w)
        with (parseArguments (pre ++ bad :: rest)%list
                (set_logLevel Debug w)).
      rewrite (IH _ P F). reflexivity.
Qed.

(** X17 -- The first unknown argument decides.  When the arguments are some
    flags followed by an argument that is no flag, [main] returns -1 after
    printing three lines, at every log level: the unknown argument in quotes,
    an empty line, the usage.  The flags before it have already set the log
    level; whatever follows it is never looked at; no outside call is made
    and the served values are untouched. *)
Theorem main_first_unknown (program : string) (pre : list string)
        (bad : string) (rest : list string) (facade : Facade) (w : World) :
  forallb isFlag pre = true -> isFlag bad = false ->
  exists w',
    main (program :: pre ++ bad :: rest)%list facade w
    = Some (Some (-1), w') /\
    cout w' = (cout w ++ fatalLines bad)%list /\
    logLevel w' = last (map levelOfFlag pre) (logLevel w) /\
    calls w' = calls w /\
    serverDataBatteryLevel w' = serverDataBatteryLevel w /\
    serverDataTextString w' = serverDataTextString w /\
    (strz bad = bad ->
     fatalLines bad
     = [("**FATAL: Unknown parameter: '" ++ bad ++ "'")%string;
        "**FATAL: ";
        "**FATAL: Usage: standalone [-q | -v | -d]"]).
Proof.
  intros P F. eexists. split.
  - unfold main. change (tl (program :: pre ++ bad :: rest)%list)
      with (pre ++ bad :: rest)%list.
    run_with (parseArguments_first_unknown_run pre bad rest w P F).
    reflexivity.
  - split; [simpl; rewrite <- !app_assoc; reflexivity|].
    repeat (split; [reflexivity|]).
    intros Z. unfold fatalLines.
    rewrite (strz_append_clean "Unknown parameter: '" (bad ++ "'") eq_refl
               (strz_append_clean bad "'" Z eq_refl)).
    reflexivity.
Qed.

Lemma main_first_unknown_witness :
  exists w',
    main ("standalone" :: ["-q"; "-d"] ++ "--help" :: ["-v"])%list
         {| ggkStart_result := 1;
            ggkGetServerRunState_results := [EStopped];
            ggkWait_result := 1;
            ggkGetServerHealth_result := EOk |} initialWorld
    = Some (Some (-1), w') /\
    cout w' = (cout initialWorld ++ fatalLines "--help")%list /\
    logLevel w' = last (map levelOfFlag ["-q"; "-d"]) (logLevel initialWorld) /\
    calls w' = calls initialWorld /\
    serverDataBatteryLevel w' = serverDataBatteryLevel initialWorld /\
    serverDataTextString w' = serverDataTextString initialWorld /\
    (strz "--help" = "--help" ->
     fatalLines "--help"
     = [("**FATAL: Unknown parameter: '" ++ "--help" ++ "'")%string;
        "**FATAL: ";
        "**FATAL: Usage: standalone [-q | -v | -d]"]).
Proof.
  apply (main_first_unknown "standalone" ["-q"; "-d"] "--help" ["-v"]);
    reflexivity.
Defined.

(** ** What every operation keeps *)

Lemma wellFormed_quiet (w w' : World) :
  quiet w w' -> wellFormed w -> wellFormed w'.
Proof.
  intros (B & T & _) [WB WT]. unfold wellFormed. rewrite B, T.
  split; assumption.
Qed.

Lemma dataSetter_wellFormed (pName pData : pointer) (w w' : World) (r : Z) :
  wellFormed w -> dataSetter pName pData w = Some (r, w') -> wellFormed w'.
Proof.
  intros [WB WT] S.
  destruct (is_null pName) eqn:N.
  { destruct pName; try discriminate N.
    rewrite dataSetter_null_name_exact in S. injection S as _ <-.
    split; assumption. }
  destruct (is_null pData) eqn:D.
  { destruct pData; try discriminate D.
    rewrite (dataSetter_null_data_exact _ _ N) in S. injection S as _ <-.
    split; assumption. }
  destruct (read_cstr_at pName w N) as (name & V & _).
  destruct (knownName name) eqn:K.
  - destruct (knownName_cases name K) as [-> | ->].
    + destruct (read_uint8_at pData w D) as (v & U & R).
      rewrite (dataSetter_battery_exact _ _ _ _ V U) in S.
      injection S as _ <-.
      destruct (verboseEnough Debug w); split; assumption.
    + destruct (read_cstr_at pData w D) as (s & U & Z).
      rewrite (dataSetter_text_exact _ _ _ _ V U) in S.
      injection S as _ <-.
      destruct (verboseEnough Debug w); split; assumption.
  - rewrite (dataSetter_unknown_exact _ _ _ _ D V K) in S.
    injection S as _ <-. split; assumption.
Qed.

Lemma parseArguments_data (args : list string) (w w' : World) (b : bool) :
  parseArguments args w = Some (b, w') ->
  serverDataBatteryLevel w' = serverDataBatteryLevel w /\
  serverDataTextString w' = serverDataTextString w.
Proof.
  revert w. induction args as [|arg rest IH]; intros w P.
  - injection P as _ <-. split; reflexivity.
  - destruct (isFlag arg) eqn:F.
    + destruct (isFlag_cases arg F) as [-> | [-> | ->]];
        apply IH in P; exact P.
    + rewrite (parseArguments_unknown_head arg rest w F) in P.
      injection P as _ <-. split; reflexivity.
Qed.

Lemma signalHandler_data (signum : Z) (w w' : World) :
  signalHandler signum w = Some (tt, w') ->
  serverDataBatteryLevel w' = serverDataBatteryLevel w /\
  serverDataTextString w' = serverDataTextString w.
Proof.
  unfold signalHandler, ggkTriggerShutdown, call, LogStatus.
  destruct (signum =? SIGINT)%Z; [|destruct (signum =? SIGTERM)%Z].
  - rewrite bind_run with (a := tt)
      (w1 := if (LogLevel_value (logLevel w) <=? LogLevel_value Normal)%Z
             then put_cout (" STATUS: SIGINT recieved, shutting down") w
             else w).
    + intros H. injection H as <-.
      destruct (LogLevel_value (logLevel w) <=? _)%Z; split; reflexivity.
    + rewrite bind_gets.
      destruct (LogLevel_value (logLevel w) <=? LogLevel_value Normal)%Z;
        reflexivity.
  - rewrite bind_run with (a := tt)
      (w1 := if (LogLevel_value (logLevel w) <=? LogLevel_value Normal)%Z
             then put_cout (" STATUS: SIGTERM recieved, shutting down") w
             else w).
    + intros H. injection H as <-.
      destruct (LogLevel_value (logLevel w) <=? _)%Z; split; reflexivity.
    + rewrite bind_gets.
      destruct (LogLevel_value (logLevel w) <=? LogLevel_value Normal)%Z;
        reflexivity.
  - intros H. injection H as <-. split; reflexivity.
Qed.

(** X18 -- The served values stay well-formed.  The level is a byte and the
    text holds no NUL at program start, and every operation of the program
    keeps it so, whatever its arguments: the two bridge functions, a read or
    a write of a central on any path, a turn of the battery loop, the signal
    handler and [main] itself. *)
Theorem wellFormed_preserved (w : World) :
  wellFormed w ->
  wellFormed initialWorld /\
  (forall pName pData r w',
     dataSetter pName pData w = Some (r, w') -> wellFormed w') /\
  (forall pName q w', dataGetter pName w = Some (q, w') -> wellFormed w') /\
  (forall path options w',
     ReadValue path options w = Some (tt, w') -> wellFormed w') /\
  (forall path bytes options w',
     WriteValue path bytes options w = Some (tt, w') -> wellFormed w') /\
  (forall w', batteryTick w = Some (tt, w') -> wellFormed w') /\
  (forall signum w', signalHandler signum w = Some (tt, w') -> wellFormed w') /\
  (forall argv facade r w',
     main argv facade w = Some (r, w') -> wellFormed w').
Proof.
  intros W. split; [split; [simpl; lia|reflexivity]|].
  split; [intros pName pData r w'; apply (dataSetter_wellFormed _ _ _ _ _ W)|].
  split.
  { intros pName q w' G.
    destruct (dataGetter_total pName w) as (q' & w0 & E & Q).
    rewrite E in G. injection G as _ <-.
    apply (wellFormed_quiet _ _ Q W). }
  split.
  { intros path options w' R.
    destruct (ReadValue_any path options w) as [m E].
    rewrite E in R. injection R as <-. exact W. }
  split.
  { intros path bytes options w' R.
    destruct (string_dec path textStringPath) as [->|N].
    - destruct (WriteValue_text_string bytes options w)
        as (w1 & E & T & _ & B & _).
      rewrite E in R. injection R as <-.
      destruct W as [WB _]. split; [rewrite B; exact WB|].
      rewrite T. apply strz_idempotent.
    - destruct (WriteValue_other path bytes options w N) as [name E].
      rewrite E in R. injection R as <-. exact W. }
  split.
  { intros w' T. rewrite batteryTick_run in T. injection T as <-.
    destruct W as [WB WT]. split; [|exact WT].
    simpl. destruct (batteryTick_level _ WB) as [U V]. rewrite U. exact V. }
  split.
  { intros signum w' S. destruct (signalHandler_data _ _ _ S) as [B T].
    destruct W as [WB WT]. unfold wellFormed. rewrite B, T.
    split; assumption. }
  intros argv facade r w' M.
  destruct W as [WB WT]. rename M into M'.
  destruct (parseArguments (tl argv) w) as [[[|] w0]|] eqn:P.
  3: { unfold main, bind at 1 in M'. rewrite P in M'. discriminate M'. }
  - destruct (parseArguments_data _ _ _ _ P) as [B0 T0].
    rewrite (main_after_startup argv facade w w0 P) in M'.
    set (w1 := fold_left (fun w0 c => put_call c w0) startupCalls w0) in M'.
    assert (B1 : serverDataBatteryLevel w1 = serverDataBatteryLevel w)
      by (rewrite <- B0; reflexivity).
    assert (T1 : serverDataTextString w1 = serverDataTextString w)
      by (rewrite <- T0; reflexivity).
    assert (W1 : wellFormed w1)
      by (unfold wellFormed; rewrite B1, T1; split; assumption).
    destruct (ggkStart_result facade =? 0)%Z.
    + injection M' as _ <-. exact W1.
    + destruct (batteryLoop_trace (ggkGetServerRunState_results facade) w1
                  (proj1 W1))
        as (w2 & E & HB & _ & _ & HT & _).
      rewrite E in M'. rewrite B1 in HB. rewrite T1 in HT.
      assert (W2 : wellFormed w2).
      { unfold wellFormed. rewrite HB, HT. split; [lia|exact WT]. }
      destruct (leavesLoop (ggkGetServerRunState_results facade)).
      * destruct (ggkWait_result facade =? 0)%Z;
          injection M' as _ <-; exact W2.
      * injection M' as _ <-. exact W2.
  - destruct (parseArguments_data _ _ _ _ P) as [B0 T0].
    unfold main in M'. rewrite (bind_run _ _ _ _ _ P) in M'.
    injection M' as _ <-.
    unfold wellFormed. rewrite B0, T0. split; assumption.
Qed.

Lemma wellFormed_preserved_witness :
  wellFormed (set_serverDataTextString "Hi" initialWorld).
Proof.
  destruct (wellFormed_preserved initialWorld) as (_ & H & _).
  - split; [simpl; lia|reflexivity].
  - apply (H (buffer "text/string") (buffer "Hi") 1). reflexivity.
Defined.

(** ** The text write, in full *)

Lemma WriteValue_text_exact (bytes : list byte) (options : Variant)
      (w : World) :
  WriteValue textStringPath bytes options w
  = Some (tt,
          put_bus (MethodReturn VNull)
            (put_bus (PropertiesChanged textStringPath
                        (VByteArray (untilNul bytes)))
               (if verboseEnough Debug w
                then put_cout
                       ("  DEBUG: Server data: text string set to '"
                        ++ strz (string_of_list_byte bytes) ++ "'")
                       (set_serverDataTextString
                          (strz (string_of_list_byte bytes)) w)
                else set_serverDataTextString
                       (strz (string_of_list_byte bytes)) w))).
Proof.
  unfold WriteValue, callMethod. rewrite find_text_string.
  change ("WriteValue" =? "ReadValue") with false.
  change ("WriteValue" =? "WriteValue") with true.
  set (self := selfOf text_string textStringPath).
  unfold text_string, onWriteValue.
  unfold g_variant_get_child_value, nth_error. run.
  unfold stringFromGVariantByteArray. run.
  run_with (setDataPointer_run _ _ _ _ _
              (dataSetter_text_exact (buffer "text/string")
                 (c_str (string_of_list_byte bytes)) w
                 (strz (string_of_list_byte bytes)) eq_refl eq_refl)).
  subst self. unfold selfOf, callOnUpdatedValue.
  match goal with
  | |- context [bind (callOnUpdatedValue_of text_string ?p) _ ?w0] =>
      run_with (text_string_onUpdatedValue p w0)
  end.
  unfold methodReturnVariant.
  rewrite <- untilNul_strz.
  destruct (verboseEnough Debug w); simpl serverDataTextString;
    rewrite strz_idempotent; reflexivity.
Qed.

(** X19 -- What a text write leaves alone.  A WriteValue on the text
    characteristic changes the stored text and the bus and nothing else: the
    battery level, the log level, the notify queue and the outside calls are
    as before, and [std::cout] gets one line, quoting the stored text, at
    level Debug and none at the other levels. *)
Theorem text_write_frame (bytes : list byte) (options : Variant) (w : World) :
  exists w',
    WriteValue textStringPath bytes options w = Some (tt, w') /\
    list_byte_of_string (serverDataTextString w') = untilNul bytes /\
    serverDataBatteryLevel w' = serverDataBatteryLevel w /\
    logLevel w' = logLevel w /\
    updateQueue w' = updateQueue w /\
    calls w' = calls w /\
    host w' = host w /\
    (logLevel w <> Debug -> cout w' = cout w) /\
    (logLevel w = Debug ->
     cout w' = (cout w ++
                [("  DEBUG: Server data: text string set to '"
                  ++ serverDataTextString w' ++ "'")%string])%list).
Proof.
  eexists. split; [apply WriteValue_text_exact|].
  assert (L : verboseEnough Debug w = true <-> logLevel w = Debug).
  { unfold verboseEnough. destruct (logLevel w); simpl; split;
      intros H; try reflexivity; discriminate H. }
  destruct (verboseEnough Debug w) eqn:B; simpl;
    (split; [apply untilNul_strz|]); repeat (split; [reflexivity|]).
  - split; [intros H; elim H; apply L; reflexivity|intros _; reflexivity].
  - intros H. apply L in H. discriminate H.
Qed.

Lemma text_write_frame_witness :
  cout (put_bus (MethodReturn VNull)
          (put_bus (PropertiesChanged textStringPath (VByteArray [x48; x69]))
             (set_serverDataTextString "Hi" initialWorld)))
  = cout initialWorld.
Proof.
  destruct (text_write_frame [x48; x69] VNull initialWorld)
    as (w' & E & _ & _ & _ & _ & _ & _ & H & _).
  injection E as <-.
  apply H. discriminate.
Defined.
